(** * watchme: dropship checkout servers

    A shallow embedding of the two Express servers of the repository:

    - [Server]: server.js, the later of its two revisions
      (src/unnamed/part_000): the SQLite order ledger, the Paystack and OPay
      checkouts and the Paystack poll-and-verify. The earlier revision
      (src/unnamed/part_001) has the same ledger statements and no shipping
      fee; it is not modelled apart.
    - [Ship]: backend.js (src/ship.js): the Stripe payment-intent checkout
      with its profit split, and the Stripe webhook, on a raw body and on
      the body that [express.json()] leaves.
    - [Catalog]: the product endpoints of server.js; [Backend]: the
      Paystack and place-order endpoints of backend.js.

    Conventions of the embedding.

    - A finite JS number is an exact rational ([Q]); [NaN] is kept apart.
      Binary64 rounding is not modelled: sums, products and quotients are
      the exact ones, which the engine's are on integers up to 2^53. A
      statement that gives the value of a rounded product or quotient
      carries the bound under which the engine computes that value, and the
      others leave such values open. The infinities are left out: JSON has
      no literal for them.
    - [process.env], the clock and the replies of the remote services are
      arguments of the handlers; every outbound call is appended to the
      [outbound] log of the world. Of the console output only the
      [console.log] lines of the webhook are kept ([console]).
    - An exception is a value [Throw message]; [try]/[catch] is a match on it.
    - The [orders] table is the list of its rows in insertion order, with
      the AUTOINCREMENT sequence beside it.
    - The handlers are modelled from the point where Express hands them the
      request: [req.body], [req.query] and the headers are inputs. For the
      webhook of backend.js, [req.body] is what the body parsers in front of
      the route leave there. *)

From Stdlib Require Import ZArith QArith Qround String Ascii List Bool Lia.
From Stdlib Require Import DecimalString.
Import ListNotations.

Local Open Scope Z_scope.
Local Open Scope string_scope.
Local Set Warnings "-register-all".

(** ** JavaScript values *)

Module JS.

(** A number: finite (exact) or [NaN]. *)
Inductive number : Type :=
| Fin (q : Q)
| NaN.

(** Values as [JSON.parse] and property reads produce them. [JBuiltin] is an
    object of the engine itself (a method of [Object.prototype], or that
    prototype), of which only the name matters. [JCat a b] is the string that
    [a + b] builds when an operand is not a number, kept unevaluated. *)
Inductive jsval : Type :=
| JUndefined
| JNull
| JBool (b : bool)
| JNum (n : number)
| JStr (s : string)
| JArr (items : list jsval)
| JObj (props : list (string * jsval))
| JBuiltin (name : string)
| JCat (a b : jsval).

Definition JInt (z : Z) : jsval := JNum (Fin (inject_Z z)).

(** An integer-valued number, or NaN ([None]). *)
Definition jsint : Type := option Z.

Definition jsint_val (n : jsint) : jsval :=
  match n with
  | Some z => JInt z
  | None => JNum NaN
  end.

(** Exceptions and the results of code that may throw. *)
Inductive result (A : Type) : Type :=
| Ok (a : A)
| Throw (message : string).
Arguments Ok {A} a.
Arguments Throw {A} message.

(** ToBoolean. *)
Definition truthy (v : jsval) : bool :=
  match v with
  | JUndefined | JNull => false
  | JBool b => b
  | JNum NaN => false
  | JNum (Fin q) => negb (Qeq_bool q 0)
  | JStr s => negb (String.eqb s EmptyString)
  | JArr _ | JObj _ | JBuiltin _ => true
  | JCat _ _ => true
  end.

(** [a || b]. *)
Definition js_or (a b : jsval) : jsval := if truthy a then a else b.

Fixpoint assoc (key : string) (props : list (string * jsval)) : option jsval :=
  match props with
  | [] => None
  | (k, v) :: rest => if String.eqb k key then Some v else assoc key rest
  end.

(** An object literal stores the last value written under a name. *)
Definition own_property (key : string) (props : list (string * jsval))
  : option jsval :=
  assoc key (rev props).

(** What every plain object inherits from [Object.prototype]. *)
Definition Object_prototype : list string :=
  [ "constructor"; "__defineGetter__"; "__defineSetter__"; "hasOwnProperty";
    "__lookupGetter__"; "__lookupSetter__"; "isPrototypeOf";
    "propertyIsEnumerable"; "toString"; "valueOf"; "__proto__";
    "toLocaleString" ].

Definition inherited (key : string) : bool :=
  existsb (String.eqb key) Object_prototype.

(** [obj[key]] on a plain object: own properties, then the prototype. *)
Definition lookup (props : list (string * jsval)) (key : string) : jsval :=
  match own_property key props with
  | Some v => v
  | None =>
      if inherited key then JBuiltin ("Object.prototype." ++ key)
      else JUndefined
  end.

(** [v.key] for a name [key] that no primitive wrapper defines: a TypeError
    on [undefined] and [null], [undefined] on the other primitives. *)
Definition get_prop (v : jsval) (key : string) : result jsval :=
  match v with
  | JUndefined =>
      Throw ("Cannot read properties of undefined (reading '" ++ key ++ "')")
  | JNull =>
      Throw ("Cannot read properties of null (reading '" ++ key ++ "')")
  | JObj props => Ok (lookup props key)
  | _ => Ok JUndefined
  end.

(** [v === "text"]. *)
Definition is_string (v : jsval) (text : string) : bool :=
  match v with
  | JStr s => String.eqb s text
  | _ => false
  end.

Definition Number_isInteger (n : Q) : bool :=
  Z.eqb (Qnum n mod Zpos (Qden n)) 0.

(** [Math.round]: the nearest integer, halves towards +infinity. *)
Definition Math_round (n : Q) : Z := Qfloor (n + (1 # 2)).

(** [n > bound], on finite numbers. *)
Definition gt (n bound : Q) : bool := negb (Qle_bool n bound).

(** [String(z)] for an integer. *)
Definition String_of_int (z : Z) : string :=
  NilZero.string_of_int (Z.to_int z).

End JS.
Import JS.

(** ** Express responses *)

Module Express.

Inductive payload : Type :=
| Json (v : jsval)                 (* res.json(v) *)
| Text (s : string)                (* res.send(s) *)
| Empty                            (* res.end() *)
| ErrorPage (message : string).    (* the default error handler *)

(** What the client receives: [res.status(code)] and the body sent. *)
Record Response : Type := mkResponse {
  code : Z;
  body : payload
}.

Definition json (code : Z) (props : list (string * jsval)) : Response :=
  mkResponse code (Json (JObj props)).

End Express.
Import Express.

(** ** server.js *)

Module Server.

(** *** Helpers *)

(** [toCents(value)], on [n = Number(value)]. Both results are integers.
    The product [n * 100] is the exact one; the engine rounds it to a double
    before [Math.round], which shows at a third decimal (1.005) and from
    2^51 cents on. *)
Definition toCents (n : number) : Z :=
  match n with
  | NaN => 0
  | Fin n =>
      if Number_isInteger n && gt n (inject_Z 1000) then Qfloor n
      else Math_round (n * inject_Z 100)
  end.

(** [fromCents(cents)]; [None] is a missing ([null], [undefined]) argument. *)
Definition fromCents (cents : option Z) : Q :=
  (inject_Z (match cents with Some c => c | None => 0 end) / inject_Z 100)%Q.

(** *** Shipping fees *)

Definition SHIPPING_FEES : list (string * jsval) :=
  [ ("Lagos", JInt 2000);
    ("Abuja", JInt 2500);
    ("Rivers", JInt 3000);
    ("Kano", JInt 2800);
    ("Kaduna", JInt 2500);
    ("Oyo", JInt 2200);
    ("Ogun", JInt 2000);
    ("Enugu", JInt 2700);
    ("Anambra", JInt 2700);
    ("default", JInt 3500) ].

(** The property name a [state] field denotes; a missing field reads as
    [undefined]. *)
Definition property_key (state : option string) : string :=
  match state with
  | Some s => s
  | None => "undefined"
  end.

Definition getShippingFee (state : option string) : jsval :=
  js_or (lookup SHIPPING_FEES (property_key state))
        (lookup SHIPPING_FEES "default").

(** *** Request bodies *)

(** A cart line as the handlers read it: [price] and [supplierCost] are
    [Number(field)] (a missing field is [NaN]); [quantity] is an integer or
    missing. *)
Record CartItem : Type := mkCartItem {
  price : number;
  supplierCost : number;
  quantity : option Z
}.

Record Customer : Type := mkCustomer {
  name : option string;
  email : option string;
  phone : option string;
  address : option string;
  state : option string
}.

(** [req.body]: [cartItems] is [None] when the field is not an array. *)
Record Body : Type := mkBody {
  cartItems : option (list CartItem);
  customer : option Customer
}.

(** [customer?.field || fallback]. *)
Definition field_or (customer : option Customer)
    (field : Customer -> option string) (fallback : string) : string :=
  match customer with
  | Some c =>
      match field c with
      | Some s => if String.eqb s EmptyString then fallback else s
      | None => fallback
      end
  | None => fallback
  end.

(** [customer?.state]. *)
Definition customer_state (customer : option Customer) : option string :=
  match customer with
  | Some c => state c
  | None => None
  end.

(** [n || 0], on numbers. *)
Definition or_zero (n : number) : Q :=
  match n with
  | Fin q => q
  | NaN => 0%Q
  end.

(** [parseInt(it.quantity || 1, 10)], for a quantity that the engine prints
    in full (below 10^21 in magnitude). *)
Definition item_qty (it : CartItem) : Z :=
  match quantity it with
  | Some q => if Z.eqb q 0 then 1 else q
  | None => 1
  end.

(** *** The orders table *)

(** A row of [orders]. INTEGER columns hold an integer or NULL ([None]);
    [items_json] holds the cart snapshot, its serialisation left abstract;
    timestamps are the clock in seconds. *)
Record Order : Type := mkOrder {
  id : Z;
  local_order_id : string;
  payment_id : option string;
  status : string;
  customer_name : string;
  customer_email : string;
  customer_phone : string;
  customer_address : string;
  items_json : list CartItem;
  total_cents_usd : option Z;
  total_kobo_ngn : option Z;
  supplier_share_cents : option Z;
  profit_cents : option Z;
  supplier_response : option string;
  created_at : Z;
  processed_at : option Z
}.

(** Calls to remote services, with the parts of each request that matter
    for what follows. *)
Inductive Call : Type :=
| RateLookup
| PaystackInitialize (email : string) (amount : jsint) (shippingFee : jsval)
| PaystackVerify (reference : string)
| OpayInvoice (reference : string) (amount : Z)
| StripeCreateIntent (amount : jsint) (application_fee_amount : option jsint)
                     (destination : option string).

(** The state the handlers share: the [orders] table, the calls sent so
    far, the console, and the entry of [sqlite_sequence] for [orders] (the
    largest id AUTOINCREMENT has handed out so far, 0 before the first). *)
Record World : Type := mkWorld {
  orders : list Order;
  outbound : list Call;
  console : list (string * jsval);
  sqlite_sequence : Z
}.

(** *** Effects: state, exceptions *)

Definition M (A : Type) : Type := World -> result A * World.

Definition ret {A} (a : A) : M A := fun w => (Ok a, w).

Definition throw {A} (message : string) : M A := fun w => (Throw message, w).

Definition bind {A B} (m : M A) (k : A -> M B) : M B :=
  fun w =>
    match m w with
    | (Ok a, w') => k a w'
    | (Throw e, w') => (Throw e, w')
    end.

Notation "x <- m ;; k" := (bind m (fun x => k))
  (at level 61, m at next level, right associativity).

(** [try { body } catch (err) { handler(err) }], at the top of a handler. *)
Definition try_catch {A} (body : M A) (handler : string -> A)
  : World -> A * World :=
  fun w =>
    match body w with
    | (Ok a, w') => (a, w')
    | (Throw e, w') => (handler e, w')
    end.

(** [await axios.post/get(...)]: the request leaves, then the reply (or the
    network or status error) comes back. *)
Definition await_call {A} (call : Call) (reply : result A) : M A :=
  fun w =>
    (reply,
     mkWorld (orders w) (outbound w ++ [call]) (console w)
       (sqlite_sequence w)).

(** [err.message || fallback]. *)
Definition message_or (message fallback : string) : string :=
  if String.eqb message EmptyString then fallback else message.

(** *** SQL statements on [orders] *)

(** SQLite's CURRENT_TIMESTAMP has a resolution of one second; [now] is
    [Date.now()], in milliseconds. *)
Definition CURRENT_TIMESTAMP (now : Z) : Z := now / 1000.

(** AUTOINCREMENT: the id of a new row is one more than the larger of the
    sequence entry and the largest id of the table. *)
Definition next_id (sequence : Z) (table : list Order) : Z :=
  1 + Z.max sequence (fold_right (fun o m => Z.max (id o) m) 0 table).

(** [payment_id TEXT UNIQUE]: two rows clash when both hold the same
    non-NULL text; NULLs never clash. *)
Definition same_payment_id (a b : option string) : bool :=
  match a, b with
  | Some x, Some y => String.eqb x y
  | _, _ => false
  end.

Definition violates_unique (payment : option string) (table : list Order)
  : bool :=
  existsb (fun o => same_payment_id (payment_id o) payment) table.

Inductive conflict_clause : Type :=
| OrAbort      (* plain INSERT: the statement fails *)
| OrIgnore.    (* INSERT OR IGNORE: the row is skipped *)

(** [db.run("INSERT ... INTO orders (...) VALUES (...)")]. [row] gives the
    listed columns; the table supplies [id] and [created_at]. The id is
    taken from the sequence before the constraint is checked: a row that OR
    IGNORE skips has used its id up, a statement that fails has not. *)
Definition insert_order (clause : conflict_clause) (now : Z)
    (row : Z -> Z -> Order) : M unit :=
  fun w =>
    let rowid := next_id (sqlite_sequence w) (orders w) in
    let new := row rowid (CURRENT_TIMESTAMP now) in
    if violates_unique (payment_id new) (orders w) then
      match clause with
      | OrAbort =>
          (Throw "SQLITE_CONSTRAINT: UNIQUE constraint failed: orders.payment_id",
           w)
      | OrIgnore =>
          (Ok tt, mkWorld (orders w) (outbound w) (console w) rowid)
      end
    else
      (Ok tt, mkWorld (orders w ++ [new]) (outbound w) (console w) rowid).

Definition mark_paid (now : Z) (reference : string) (o : Order) : Order :=
  if same_payment_id (payment_id o) (Some reference) then
    mkOrder (id o) (local_order_id o) (payment_id o) "paid"
      (customer_name o) (customer_email o) (customer_phone o)
      (customer_address o) (items_json o) (total_cents_usd o)
      (total_kobo_ngn o) (supplier_share_cents o) (profit_cents o)
      (supplier_response o) (created_at o) (Some (CURRENT_TIMESTAMP now))
  else o.

(** [UPDATE orders SET status = 'paid', processed_at = CURRENT_TIMESTAMP
     WHERE payment_id = ?]. *)
Definition update_paid (now : Z) (reference : string) : M unit :=
  fun w =>
    (Ok tt,
     mkWorld (map (mark_paid now reference) (orders w)) (outbound w)
       (console w) (sqlite_sequence w)).

(** [x ?? 0]: [None] is a missing argument. *)
Definition nullish_zero (x : option jsint) : jsint :=
  match x with
  | Some n => n
  | None => Some 0
  end.

(** [createDraftOrder({ paymentId, cartItems, customer, usdTotalCents,
    koboTotal, supplierTotal, profitCents })]. A NaN total is stored as
    NULL. *)
Definition createDraftOrder (now : Z) (paymentId : option string)
    (cartItems : option (list CartItem)) (customer : option Customer)
    (usdTotalCents koboTotal supplierTotal profitCents : option jsint)
  : M string :=
  let local_order_id := "o" ++ String_of_int now in
  _ <- insert_order OrIgnore now (fun id created_at =>
         {| id := id;
            local_order_id := local_order_id;
            payment_id := paymentId;
            status := "pending";
            customer_name := field_or customer name EmptyString;
            customer_email := field_or customer email EmptyString;
            customer_phone := field_or customer phone EmptyString;
            customer_address := field_or customer address EmptyString;
            items_json := match cartItems with Some l => l | None => [] end;
            total_cents_usd := nullish_zero usdTotalCents;
            total_kobo_ngn := nullish_zero koboTotal;
            supplier_share_cents := nullish_zero supplierTotal;
            profit_cents := nullish_zero profitCents;
            supplier_response := None;
            created_at := created_at;
            processed_at := None |}) ;;
  ret local_order_id.

(** *** Exchange rate *)

(** The part of [process.env] that steers control flow. *)
Record Env : Type := mkEnv {
  EXCHANGE_RATE_API_KEY : option string;
  OPAY_SECRET_KEY : option string
}.

(** [!value], for an environment variable. *)
Definition unset (value : option string) : bool :=
  match value with
  | Some s => String.eqb s EmptyString
  | None => true
  end.

(** [fetchUsdToNgnRate()]. [reply] is [resp.data?.conversion_rates?.NGN] as
    a number ([NaN] when the field is missing), or the failure of the
    request. *)
Definition fetchUsdToNgnRate (env : Env) (reply : result number) : M Q :=
  if unset (EXCHANGE_RATE_API_KEY env) then
    throw "Missing EXCHANGE_RATE_API_KEY"
  else
    rate <- await_call RateLookup reply ;;
    match rate with
    | Fin q => if Qeq_bool q 0 then throw "Could not get NGN rate" else ret q
    | NaN => throw "Could not get NGN rate"
    end.

(** *** Paystack *)

(** [response.data.data] of the initialize call, as far as it is read. *)
Record PaystackInit : Type := mkPaystackInit {
  authorization_url : jsval;
  reference : option string
}.

Definition opt_string (s : option string) : jsval :=
  match s with
  | Some s => JStr s
  | None => JUndefined
  end.

(** [ngnTotal += shippingFee]: a sum of numbers, or else a string. *)
Definition add_fee (ngnTotal : Q) (shippingFee : jsval) : jsval :=
  match shippingFee with
  | JNum (Fin fee) => JNum (Fin (ngnTotal + fee))
  | JNum NaN => JNum NaN
  | other => JCat (JNum (Fin ngnTotal)) other
  end.

(** [Math.round(ngnTotal * 100)]; the string of [add_fee] is no numeral, so
    its product is NaN. *)
Definition round_kobo (ngnTotal : jsval) : jsint :=
  match ngnTotal with
  | JNum (Fin q) => Some (Math_round (q * inject_Z 100))
  | _ => None
  end.

(** The cart total of the Paystack checkout: prices are taken as naira. *)
Definition paystack_total (items : list CartItem) : Q :=
  fold_left (fun ngnTotal it =>
               (ngnTotal + or_zero (price it) * inject_Z (item_qty it))%Q)
            items 0%Q.

(** [createPaystackOrderHandler(req, res)], with [resp.data.data] of the
    gateway as [reply] ([None] when the object is missing). *)
Definition createPaystackOrderHandler (now : Z) (body : Body)
    (reply : result (option PaystackInit)) : World -> Response * World :=
  match cartItems body with
  | None | Some [] =>
      fun w =>
        (json 400 [("success", JBool false);
                   ("message", JStr "cartItems required")], w)
  | Some items =>
      let customer := customer body in
      let shippingFee := getShippingFee (customer_state customer) in
      let ngnTotal := add_fee (paystack_total items) shippingFee in
      let totalKobo := round_kobo ngnTotal in
      try_catch
        (response <- await_call
           (PaystackInitialize (field_or customer email "guest@example.com")
              totalKobo shippingFee) reply ;;
         data <- match response with
                 | Some d => ret d
                 | None =>
                     throw "Cannot read properties of undefined (reading 'reference')"
                 end ;;
         _ <- createDraftOrder now (reference data) (Some items) customer
                (Some (Some 0)) (Some totalKobo) (Some (Some 0))
                (Some (Some 0)) ;;
         ret (json 200 [("success", JBool true);
                        ("authorizationUrl", authorization_url data);
                        ("reference", opt_string (reference data));
                        ("totalNgn", ngnTotal);
                        ("totalKobo", jsint_val totalKobo)]))
        (fun message =>
           json 500 [("success", JBool false);
                     ("error", JStr (message_or message
                                       "Paystack request failed"))])
  end.

(** [verifyPaystackPayment(req, res)]: [reference] is [req.query.reference],
    [reply] is [verifyResp.data]. *)
Definition verifyPaystackPayment (now : Z) (reference : option string)
    (reply : result jsval) : World -> Response * World :=
  match reference with
  | None | Some EmptyString =>
      fun w =>
        (json 400 [("success", JBool false);
                   ("message", JStr "Reference required")], w)
  | Some reference =>
      try_catch
        (verifyResp <- await_call (PaystackVerify reference) reply ;;
         data <- (fun w => (get_prop verifyResp "data", w)) ;;
         status <- (fun w => (get_prop data "status", w)) ;;
         if is_string status "success" then
           _ <- update_paid now reference ;;
           ret (json 200 [("success", JBool true);
                          ("message", JStr "Payment verified");
                          ("order", data)])
         else
           ret (json 400 [("success", JBool false);
                          ("message", JStr "Payment failed")]))
        (fun message =>
           json 500 [("success", JBool false); ("error", JStr message)])
  end.

(** *** OPay *)

(** The cart totals of the OPay checkout, in USD cents. *)
Definition opay_totals (items : list CartItem) : Z * Z :=
  fold_left (fun '(usdTotal, usdSupplierTotal) it =>
               let price := toCents (price it) in
               let cost := toCents (Fin (or_zero (supplierCost it))) in
               let qty := item_qty it in
               (usdTotal + price * qty, usdSupplierTotal + cost * qty))
            items (0, 0).

(** [createOpayOrderHandler(req, res)]: [rate_reply] answers the rate
    lookup, [opay_reply] is [opayResp.data]. The HMAC itself is not
    computed; creating it throws when the secret is undefined. *)
Definition createOpayOrderHandler (env : Env) (now : Z) (body : Body)
    (rate_reply : result number) (opay_reply : result jsval)
  : World -> Response * World :=
  match cartItems body with
  | None | Some [] =>
      fun w =>
        (json 400 [("success", JBool false);
                   ("message", JStr "cartItems required")], w)
  | Some items =>
      let customer := customer body in
      let '(usdTotal, usdSupplierTotal) := opay_totals items in
      try_catch
        (usdToNgn <- fetchUsdToNgnRate env rate_reply ;;
         let totalUsd := fromCents (Some usdTotal) in
         let totalNaira := (totalUsd * usdToNgn)%Q in
         let totalKobo := Math_round (totalNaira * inject_Z 100) in
         let reference := "opay_ref_" ++ String_of_int now in
         _ <- match OPAY_SECRET_KEY env with
              | Some _ => ret tt
              | None =>
                  throw "The 'key' argument must be of type string. Received undefined"
              end ;;
         opayResp <- await_call (OpayInvoice reference totalKobo) opay_reply ;;
         _ <- createDraftOrder now (Some reference) (Some items) customer
                (Some (Some usdTotal)) (Some (Some totalKobo))
                (Some (Some usdSupplierTotal))
                (Some (Some (usdTotal - usdSupplierTotal))) ;;
         ret (json 200 [("success", JBool true);
                        ("data", opayResp);
                        ("reference", JStr reference);
                        ("totalKobo", JInt totalKobo);
                        ("rate", JNum (Fin usdToNgn))]))
        (fun message =>
           json 500 [("success", JBool false); ("error", JStr message)])
  end.

End Server.

Import Server.

(** ** backend.js *)

Module Ship.

(** A cart line of the payment-intent checkout: each amount is an integer
    (cents) or missing. *)
Record Item : Type := mkItem {
  price : option Z;
  quantity : option Z;
  qty : option Z;
  supplierCost : option Z
}.

Record Env : Type := mkEnv {
  SUPPLIER_STRIPE_ACCOUNT : option string;
  STRIPE_WEBHOOK_SECRET : option string
}.

(** Arithmetic on integers with NaN. *)
Definition lift2 (f : Z -> Z -> Z) (a b : jsint) : jsint :=
  match a, b with
  | Some x, Some y => Some (f x y)
  | _, _ => None
  end.

(** [a < 0]: false on NaN. *)
Definition negative (a : jsint) : bool :=
  match a with
  | Some x => Z.ltb x 0
  | None => false
  end.

(** [a || b], on a number field. *)
Definition first_truthy (a : option Z) (b : option Z) : option Z :=
  match a with
  | Some x => if Z.eqb x 0 then b else a
  | None => b
  end.

(** [parseInt(field, 10)] of an integer that the engine holds and prints in
    full (see [safe]): the integer itself; NaN for a missing field. *)
Definition parseInt (field : option Z) : jsint := field.

(** The loop of the handler: [(total, supplierTotal)]. *)
Definition totals (cartItems : list Item) : jsint * jsint :=
  fold_left (fun '(total, supplierTotal) it =>
               let price := parseInt (price it) in
               let qty :=
                 parseInt (first_truthy (quantity it)
                             (first_truthy (qty it) (Some 1))) in
               let sup :=
                 parseInt (first_truthy (supplierCost it) (Some 0)) in
               (lift2 Z.add total (lift2 Z.mul price qty),
                lift2 Z.add supplierTotal (lift2 Z.mul sup qty)))
            cartItems (Some 0, Some 0).

(** [Number.MAX_SAFE_INTEGER], 2^53 - 1: an integer up to it is held without
    rounding, and printed with all its digits. *)
Definition MAX_SAFE_INTEGER : Z := 9007199254740991.

Definition safe (z : Z) : bool := Z.leb (Z.abs z) MAX_SAFE_INTEGER.

(** The loop of the handler, started at [(total, supplierTotal)], is exact
    on [cartItems]: every amount it reads is a safe integer, and so are
    every product and every sum it forms, and the profit at the end. *)
Fixpoint exact_from (total supplierTotal : Z) (cartItems : list Item) : bool :=
  match cartItems with
  | [] => safe (total - supplierTotal)
  | it :: rest =>
      match price it,
            first_truthy (quantity it) (first_truthy (qty it) (Some 1)),
            first_truthy (supplierCost it) (Some 0) with
      | Some price, Some qty, Some sup =>
          safe price && safe qty && safe sup
          && safe (price * qty) && safe (sup * qty)
          && safe (total + price * qty) && safe (supplierTotal + sup * qty)
          && exact_from (total + price * qty) (supplierTotal + sup * qty) rest
      | _, _, _ => false
      end
  end.

Definition exact (cartItems : list Item) : bool := exact_from 0 0 cartItems.

(** [params.application_fee_amount || 0]. *)
Definition fee_or_zero (fee : option jsint) : jsval :=
  match fee with
  | Some (Some z) => JInt z
  | _ => JInt 0
  end.

(** [POST /api/create-payment-intent]: [reply] is the payment intent that
    [stripe.paymentIntents.create] resolves to. *)
Definition create_payment_intent (env : Env) (cartItems : option (list Item))
    (reply : result jsval) : World -> Response * World :=
  match cartItems with
  | None | Some [] =>
      fun w =>
        (json 400 [("success", JBool false);
                   ("message", JStr "No cart items provided")], w)
  | Some items =>
      let '(total, supplierTotal) := totals items in
      let profit := lift2 Z.sub total supplierTotal in
      if negative profit then
        fun w =>
          (json 400 [("success", JBool false);
                     ("message",
                      JStr "Supplier cost exceeds customer price for items")],
           w)
      else
        let application_fee_amount :=
          if unset (SUPPLIER_STRIPE_ACCOUNT env) then None else Some profit in
        let destination :=
          if unset (SUPPLIER_STRIPE_ACCOUNT env) then None
          else SUPPLIER_STRIPE_ACCOUNT env in
        try_catch
          (paymentIntent <- await_call
             (StripeCreateIntent total application_fee_amount destination)
             reply ;;
           clientSecret <-
             (fun w => (get_prop paymentIntent "client_secret", w)) ;;
           ret (mkResponse 200
                  (Json (JObj [("clientSecret", clientSecret);
                               ("amount", jsint_val total);
                               ("application_fee_amount",
                                fee_or_zero application_fee_amount);
                               ("supplier_share", jsint_val supplierTotal)]))))
          (fun message =>
             json 500 [("success", JBool false);
                       ("message", JStr (message_or message "Internal error"))])
  end.

(** [console.log(label, value)]. *)
Definition console_log (label : string) (value : jsval) : M unit :=
  fun w =>
    (Ok tt,
     mkWorld (orders w) (outbound w) (console w ++ [(label, value)])
       (sqlite_sequence w)).

(** [event.data.object.id]. *)
Definition event_object_id (event : jsval) : M jsval :=
  fun w =>
    (match get_prop event "data" with
     | Ok data =>
         match get_prop data "object" with
         | Ok object => get_prop object "id"
         | Throw e => Throw e
         end
     | Throw e => Throw e
     end, w).

(** [handleStripeEvent(event)]; a [Throw] is the rejection of its promise. *)
Definition handleStripeEvent (event : jsval) : M unit :=
  type <- (fun w => (get_prop event "type", w)) ;;
  if is_string type "payment_intent.succeeded" then
    id <- event_object_id event ;;
    console_log "PaymentIntent succeeded:" id
  else if is_string type "payment_intent.payment_failed" then
    id <- event_object_id event ;;
    console_log "Payment failed:" id
  else
    console_log "Unhandled event type:" type.

(** [handleStripeEvent(event).then(() => res.json({ received: true }))
      .catch(e => { console.error(e); res.status(500).end(); })]. *)
Definition acknowledge (event : jsval) : World -> Response * World :=
  fun w =>
    match handleStripeEvent event w with
    | (Ok _, w') => (json 200 [("received", JBool true)], w')
    | (Throw _, w') => (mkResponse 500 Empty, w')
    end.

Section Webhook.

(** [JSON.parse(req.body.toString())] and [stripe.webhooks.constructEvent],
    each returning the event or throwing. *)
Variable JSON_parse : string -> result jsval.
Variable constructEvent : string -> option string -> string -> result jsval.

(** [POST /webhook], on the raw body and the [stripe-signature] header: the
    route on a body that no parser has replaced. *)
Definition webhook (env : Env) (body : string) (sig : option string)
  : World -> Response * World :=
  if unset (STRIPE_WEBHOOK_SECRET env) then
    match JSON_parse body with
    | Ok event => acknowledge event
    | Throw message => fun w => (mkResponse 500 (ErrorPage message), w)
    end
  else
    let webhookSecret :=
      match STRIPE_WEBHOOK_SECRET env with
      | Some s => s
      | None => EmptyString
      end in
    match constructEvent body sig webhookSecret with
    | Ok event => acknowledge event
    | Throw message =>
        fun w => (mkResponse 400 (Text ("Webhook Error: " ++ message)), w)
    end.

End Webhook.

(** [req.body.toString()] when [req.body] is an object that a body parser
    built from JSON: the method is the one of [Object.prototype], unless the
    object has a member of that name, and a member is never a function. *)
Definition parsed_toString (props : list (string * jsval)) : result string :=
  match own_property "toString" props with
  | Some _ => Throw "req.body.toString is not a function"
  | None => Ok "[object Object]"
  end.

Section ParsedBody.

Variable JSON_parse : string -> result jsval.

(** [stripe.webhooks.constructEvent] on a payload that is the parsed object
    and not the raw body. *)
Variable constructEvent :
  list (string * jsval) -> option string -> string -> result jsval.

(** [POST /webhook] for a request of type application/json whose body is a
    JSON object with the members [props]. [app.use(express.json())] (l.21)
    comes before the route, reads the request and puts the parsed object in
    [req.body]; [bodyParser.raw] (l.22 and on the route, l.309) leaves a
    request alone whose body has been read. What the route passes on is
    therefore the text of [req.body.toString()], or the object itself. An
    exception outside the [try] reaches the default error handler. *)
Definition webhook_parsed (env : Env) (props : list (string * jsval))
    (sig : option string) : World -> Response * World :=
  if unset (STRIPE_WEBHOOK_SECRET env) then
    match parsed_toString props with
    | Ok text =>
        match JSON_parse text with
        | Ok event => acknowledge event
        | Throw message => fun w => (mkResponse 500 (ErrorPage message), w)
        end
    | Throw message => fun w => (mkResponse 500 (ErrorPage message), w)
    end
  else
    let webhookSecret :=
      match STRIPE_WEBHOOK_SECRET env with
      | Some s => s
      | None => EmptyString
      end in
    match constructEvent props sig webhookSecret with
    | Ok event => acknowledge event
    | Throw message =>
        fun w => (mkResponse 400 (Text ("Webhook Error: " ++ message)), w)
    end.

End ParsedBody.

End Ship.

(** ** The requests of the system *)

Module System.

(** The requests that reach the orders table, a gateway or the webhook, each
    with the replies of the remote services it will get. A delivery to the
    webhook comes with a raw body, or with a JSON object that has been
    parsed on the way. *)
Inductive request : Type :=
| CreatePaystackOrder (body : Body) (reply : result (option PaystackInit))
| PaystackCallback (reference : option string) (reply : result jsval)
| CreateOpayOrder (body : Body) (rate_reply : result number)
                  (opay_reply : result jsval)
| CreatePaymentIntent (cartItems : option (list Ship.Item))
                      (reply : result jsval)
| Webhook (body : string) (sig : option string)
| WebhookJson (props : list (string * jsval)) (sig : option string).

Record Config : Type := mkConfig {
  server_env : Server.Env;
  ship_env : Ship.Env;
  JSON_parse : string -> result jsval;
  constructEvent : string -> option string -> string -> result jsval;
  constructEvent_parsed :
    list (string * jsval) -> option string -> string -> result jsval
}.

(** One request served at time [now]. *)
Definition handle (cfg : Config) (now : Z) (req : request)
  : World -> Response * World :=
  match req with
  | CreatePaystackOrder body reply =>
      createPaystackOrderHandler now body reply
  | PaystackCallback reference reply =>
      verifyPaystackPayment now reference reply
  | CreateOpayOrder body rate_reply opay_reply =>
      createOpayOrderHandler (server_env cfg) now body rate_reply opay_reply
  | CreatePaymentIntent cartItems reply =>
      Ship.create_payment_intent (ship_env cfg) cartItems reply
  | Webhook body sig =>
      Ship.webhook (JSON_parse cfg) (constructEvent cfg) (ship_env cfg)
        body sig
  | WebhookJson props sig =>
      Ship.webhook_parsed (JSON_parse cfg) (constructEvent_parsed cfg)
        (ship_env cfg) props sig
  end.

(** The world after a sequence of timed requests. *)
Fixpoint run (cfg : Config) (trace : list (Z * request)) (w : World) : World :=
  match trace with
  | [] => w
  | (now, req) :: rest => run cfg rest (snd (handle cfg now req w))
  end.

(** A fresh install: empty table, nothing sent, nothing logged, no id
    handed out. *)
Definition initial : World := mkWorld [] [] [] 0.

(** [req] is a poll-and-verify of [reference] that the gateway answers with
    status "success". *)
Definition verifies (req : request) (reference : string) : bool :=
  match req with
  | PaystackCallback (Some r) (Ok verifyResp) =>
      String.eqb r reference && negb (String.eqb r EmptyString) &&
      match get_prop verifyResp "data" with
      | Ok data =>
          match get_prop data "status" with
          | Ok status => is_string status "success"
          | Throw _ => false
          end
      | Throw _ => false
      end
  | _ => false
  end.

End System.
Import System.

(** ** Predicates on the orders table *)

(** The UNIQUE constraint on [payment_id], as a check of a whole table. *)
Fixpoint unique_payment_ids (table : list Order) : bool :=
  match table with
  | [] => true
  | o :: rest =>
      negb (violates_unique (payment_id o) rest) && unique_payment_ids rest
  end.

(** The rows recorded under a payment reference. *)
Definition rows_of (reference : string) (table : list Order) : list Order :=
  filter (fun o => same_payment_id (payment_id o) (Some reference)) table.

Definition terminal (o : Order) : Prop :=
  status o = "paid" \/ status o = "failed".

Definition open_or_paid (o : Order) : Prop :=
  status o = "pending" \/ status o = "paid".

(** The row that an accepted [createDraftOrder] adds in the world [w]. *)
Definition draft_row (now : Z) (paymentId : option string)
    (cartItems : option (list CartItem)) (customer : option Customer)
    (usdTotalCents koboTotal supplierTotal profitCents : option jsint)
    (w : World) : Order :=
  {| id := next_id (sqlite_sequence w) (orders w);
     local_order_id := "o" ++ String_of_int now;
     payment_id := paymentId;
     status := "pending";
     customer_name := field_or customer name EmptyString;
     customer_email := field_or customer email EmptyString;
     customer_phone := field_or customer phone EmptyString;
     customer_address := field_or customer address EmptyString;
     items_json := match cartItems with Some l => l | None => [] end;
     total_cents_usd := nullish_zero usdTotalCents;
     total_kobo_ngn := nullish_zero koboTotal;
     supplier_share_cents := nullish_zero supplierTotal;
     profit_cents := nullish_zero profitCents;
     supplier_response := None;
     created_at := CURRENT_TIMESTAMP now;
     processed_at := None |}.

(** What a request does to a row that is already in the table. *)
Definition touch (now : Z) (req : request) (o : Order) : Order :=
  match req with
  | PaystackCallback (Some r) _ =>
      if verifies req r then mark_paid now r o else o
  | _ => o
  end.

(** [req] is a successful poll-and-verify of the reference of [o]. *)
Definition stamped (req : request) (o : Order) : bool :=
  match payment_id o with
  | Some r => verifies req r
  | None => false
  end.

Definition fresh_draft (o : Order) : Prop :=
  status o = "pending" /\ processed_at o = None.

(** What a request appends to a table: nothing, or one draft under a
    reference the table does not hold. *)
Inductive appended (table : list Order) : list Order -> Prop :=
| appended_none : appended table []
| appended_draft (o : Order) :
    fresh_draft o ->
    violates_unique (payment_id o) table = false ->
    appended table [o].

(** ** Webhook events *)

(** An event whose type the handler has no case for. *)
Definition unrecognized (event : jsval) : Prop :=
  exists type,
    get_prop event "type" = Ok type /\
    is_string type "payment_intent.succeeded" = false /\
    is_string type "payment_intent.payment_failed" = false.

(** A [payment_intent.succeeded] event that carries the payment intent
    [id] in [data.object]. *)
Definition succeeded_for (event id : jsval) : Prop :=
  exists type data object,
    get_prop event "type" = Ok type /\
    is_string type "payment_intent.succeeded" = true /\
    get_prop event "data" = Ok data /\
    get_prop data "object" = Ok object /\
    get_prop object "id" = Ok id.

(** ** Sample data *)

Module Sample.

Definition keys : Server.Env :=
  Server.mkEnv (Some "rate-key") (Some "opay-secret").

(** [[{ price: 10.00, supplierCost: 6.00, quantity: 2 }]]. *)
Definition cart : list CartItem :=
  [mkCartItem (Fin (inject_Z 10)) (Fin (inject_Z 6)) (Some 2)].

Definition abuja : Customer :=
  mkCustomer None None None None (Some "Abuja").

Definition checkout : Body := mkBody (Some cart) (Some abuja).

(** [[{ price: 5, supplierCost: 10, quantity: 1 }]]: sold at a loss. *)
Definition loss_cart : list CartItem :=
  [mkCartItem (Fin (inject_Z 5)) (Fin (inject_Z 10)) (Some 1)].

(** The same loss, in cents, for the payment-intent checkout. *)
Definition loss_items : list Ship.Item :=
  [Ship.mkItem (Some 500) (Some 1) None (Some 1000)].

Definition init_ok : PaystackInit :=
  mkPaystackInit (JStr "https://checkout.paystack.com/abc") (Some "ref_1").

Definition verify_success : jsval :=
  JObj [("status", JBool true);
        ("data", JObj [("status", JStr "success");
                       ("reference", JStr "ref_1")])].

Definition refund_event : jsval :=
  JObj [("id", JStr "evt_1"); ("type", JStr "charge.refunded")].

Definition succeeded_event : jsval :=
  JObj [("id", JStr "evt_2");
        ("type", JStr "payment_intent.succeeded");
        ("data", JObj [("object", JObj [("id", JStr "pi_123")])])].

(** [JSON.parse], as far as the bodies below need it. *)
Definition parse (text : string) : result jsval :=
  if String.eqb text "{}" then Ok (JObj [])
  else Throw "Unexpected token o in JSON at position 1".

(** The signature check on a raw body and on a parsed one: neither finds a
    signature it accepts. *)
Definition no_signature (payload : string) (sig : option string)
    (secret : string) : result jsval :=
  Throw "No signatures found matching the expected signature for payload.".

Definition no_signature_parsed (payload : list (string * jsval))
    (sig : option string) (secret : string) : result jsval :=
  Throw "No signatures found matching the expected signature for payload.".

(** A deployment without a webhook secret. *)
Definition config : Config :=
  mkConfig keys (Ship.mkEnv None None) parse no_signature
    no_signature_parsed.

(** A draft is opened under [ref_1] and then verified as paid. *)
Definition paid_trace : list (Z * request) :=
  [ (1000000, CreatePaystackOrder checkout (Ok (Some init_ok)));
    (2000000, PaystackCallback (Some "ref_1") (Ok verify_success)) ].

(** Afterwards: a second verify, a second draft under the same reference, a
    failing verify and two webhook deliveries. *)
Definition later_trace : list (Z * request) :=
  [ (3000000, PaystackCallback (Some "ref_1") (Ok verify_success));
    (4000000, CreatePaystackOrder checkout (Ok (Some init_ok)));
    (5000000, PaystackCallback (Some "ref_1") (Throw "timeout"));
    (6000000, Webhook "{}" None);
    (7000000, WebhookJson [("id", JStr "evt_1");
                           ("type", JStr "charge.refunded")] None) ].

End Sample.

(** ** server.js: the product catalog *)

Module Catalog.

(** A row of [products]; the list is in rowid order. *)
Record Product : Type := mkProduct {
  id : string;
  title : string;
  price_usd_cents : option Z;
  supplierCost_usd_cents : option Z;
  supplier_sku : string;
  img : option string
}.

(** [SELECT * FROM products WHERE id = ?]. *)
Definition select (pid : string) (products : list Product) : option Product :=
  find (fun p => String.eqb (id p) pid) products.

(** [id TEXT PRIMARY KEY], as a check of a whole table. *)
Fixpoint unique_ids (products : list Product) : bool :=
  match products with
  | [] => true
  | p :: rest =>
      negb (existsb (fun q => String.eqb (id q) (id p)) rest)
      && unique_ids rest
  end.

(** [INSERT OR REPLACE INTO products]: the row that holds the id, if any,
    is deleted and the new row gets the next rowid. *)
Definition insert_or_replace (p : Product) (products : list Product)
  : list Product :=
  filter (fun q => negb (String.eqb (id q) (id p))) products ++ [p].

(** [DELETE FROM products WHERE id = ?]. *)
Definition delete (pid : string) (products : list Product) : list Product :=
  filter (fun q => negb (String.eqb (id q) pid)) products.

(** [UPDATE products SET price_usd_cents = ?, img = ? WHERE id = ?]. *)
Definition update (pid : string) (price : option Z) (image : option string)
    (products : list Product) : list Product :=
  map (fun q =>
         if String.eqb (id q) pid then
           mkProduct (id q) (title q) price (supplierCost_usd_cents q)
             (supplier_sku q) image
         else q)
      products.

(** The body of [POST /api/add-product]: [new_price] is [None] when the
    field is [null] or missing and [Number(price)] otherwise;
    [new_supplierCost] is [Number(supplierCost)] ([NaN] when missing). *)
Record NewProduct : Type := mkNewProduct {
  new_id : option string;
  new_title : option string;
  new_price : option number;
  new_supplierCost : number;
  new_supplier_sku : option string;
  new_img : option string
}.

(** [value || fallback], on an optional string. *)
Definition string_or (value : option string) (fallback : string) : string :=
  match value with
  | Some s => if String.eqb s EmptyString then fallback else s
  | None => fallback
  end.

Definition opt_int (z : option Z) : jsval :=
  match z with
  | Some z => JInt z
  | None => JNull
  end.

Definition opt_text (s : option string) : jsval :=
  match s with
  | Some s => JStr s
  | None => JNull
  end.

(** The columns of a row, as [db.get] and [db.all] return it. *)
Definition columns (p : Product) : list (string * jsval) :=
  [("id", JStr (id p));
   ("title", JStr (title p));
   ("price_usd_cents", opt_int (price_usd_cents p));
   ("supplierCost_usd_cents", opt_int (supplierCost_usd_cents p));
   ("supplier_sku", JStr (supplier_sku p));
   ("img", opt_text (img p))].

(** The row that [POST /api/add-product] writes at time [now]. *)
Definition new_row (now : Z) (body : NewProduct) (title : string)
    (price : number) : Product :=
  mkProduct (string_or (new_id body) ("p" ++ String_of_int now))
    title
    (Some (toCents price))
    (Some (toCents (Fin (or_zero (new_supplierCost body)))))
    (string_or (new_supplier_sku body) EmptyString)
    (Some (string_or (new_img body) EmptyString)).

(** [POST /api/add-product]. *)
Definition add_product (now : Z) (body : NewProduct)
    (products : list Product) : Response * list Product :=
  match new_title body, new_price body with
  | Some (String c t), Some price =>
      let row := new_row now body (String c t) price in
      let products' := insert_or_replace row products in
      match select (id row) products' with
      | Some product =>
          (json 200
             [("success", JBool true);
              ("product",
               JObj (columns product ++
                     [("price",
                       JNum (Fin (fromCents (price_usd_cents product))));
                      ("supplierCost",
                       JNum (Fin (fromCents
                                    (supplierCost_usd_cents product))))]))],
           products')
      | None =>
          (json 500 [("success", JBool false);
                     ("error", JStr "DB insert error")], products')
      end
  | _, _ =>
      (json 400 [("success", JBool false);
                 ("message", JStr "title & price required")], products)
  end.

(** [Math.round(x)] of a number; NaN stays NaN ([None]). *)
Definition round_number (x : number) : jsint :=
  match x with
  | Fin q => Some (Math_round q)
  | NaN => None
  end.

(** [PUT /api/update-product/:id]: [price] is [Number(req.body.price)],
    [currency] is [req.body.currency] when it is a string. A failure is
    answered with status 200. *)
Definition update_product (env : Server.Env) (pid : string) (price : number)
    (image : option string) (currency : option string)
    (rate_reply : result number) (products : list Product)
  : World -> Response * list Product * World :=
  fun w =>
    let stored (usdPriceCents : jsint) (w' : World) :=
      (json 200 [("success", JBool true)],
       update pid usdPriceCents image products, w') in
    let currency_is (name : string) :=
      match currency with
      | Some c => String.eqb c name
      | None => false
      end in
    if currency_is "USD" then
      stored (match price with
              | Fin q => round_number (Fin (q * inject_Z 100))
              | NaN => None
              end) w
    else if currency_is "NGN" then
      match fetchUsdToNgnRate env rate_reply w with
      | (Ok rate, w') =>
          stored (match price with
                  | Fin q => round_number (Fin (q / rate * inject_Z 100))
                  | NaN => None
                  end) w'
      | (Throw message, w') =>
          (json 200 [("success", JBool false); ("error", JStr message)],
           products, w')
      end
    else stored None w.

(** [DELETE /api/delete-product/:id]. *)
Definition delete_product (pid : string) (products : list Product)
  : Response * list Product :=
  (json 200 [("success", JBool true); ("message", JStr ("Deleted " ++ pid))],
   delete pid products).

(** An entry of [GET /api/products]; [price_ngn] is the exact product, which
    the engine rounds. *)
Definition listing (usdToNgn : Q) (p : Product) : jsval :=
  let usdPrice := fromCents (price_usd_cents p) in
  JObj (columns p ++
        [("price_usd", JNum (Fin usdPrice));
         ("price_ngn", JNum (Fin (usdPrice * usdToNgn)));
         ("supplierCost_usd",
          JNum (Fin (fromCents (supplierCost_usd_cents p))))]).

(** [GET /api/products]: [ORDER BY rowid DESC]. *)
Definition get_products (env : Server.Env) (rate_reply : result number)
    (products : list Product) : World -> Response * World :=
  try_catch
    (usdToNgn <- fetchUsdToNgnRate env rate_reply ;;
     ret (json 200 [("success", JBool true);
                    ("products",
                     JArr (map (listing usdToNgn) (rev products)))]))
    (fun _ => json 500 [("success", JBool false); ("error", JStr "DB error")]).

End Catalog.

(** ** backend.js: Paystack and order placement *)

Module Backend.

(** A cart line of the Paystack checkout: numbers, or missing. *)
Record Line : Type := mkLine {
  price : option Q;
  quantity : option Q
}.

(** What leaves the process, in order. Of a mail only the recipient and the
    subject are kept; its HTML body is not modelled. *)
Inductive Effect : Type :=
| PaystackInitialize (email : string) (amount : Q)
| PaystackVerify (reference : string)
| RetrieveIntent (paymentIntentId : string)
| SupplierPost (order : jsval)
| SendMail (to : jsval) (subject : string).

(** [orders.json] as [saveOrderLocally] finds it: no file, or a file of
    which [JSON.parse(fs.readFileSync(file))] makes [parsed] (a [Throw]
    when the file cannot be read or holds no JSON). [Holds (Ok v)] is also
    the file that holds what [JSON.stringify] makes of [v]. *)
Inductive File : Type :=
| Absent
| Holds (parsed : result jsval).

(** [orders.json] and the effects so far. *)
Record State : Type := mkState {
  orders_json : File;
  effects : list Effect
}.

Record Env : Type := mkEnv {
  SUPPLIER_API_URL : option string;
  SUPPLIER_API_KEY : option string;
  EMAIL_TO_ADMIN : option string
}.

Definition B (A : Type) : Type := State -> result A * State.

Definition pure {A} (a : A) : B A := fun s => (Ok a, s).

Definition raise {A} (message : string) : B A := fun s => (Throw message, s).

Definition and_then {A C} (m : B A) (k : A -> B C) : B C :=
  fun s =>
    match m s with
    | (Ok a, s') => k a s'
    | (Throw e, s') => (Throw e, s')
    end.

Notation "x <~ m ;; k" := (and_then m (fun x => k))
  (at level 61, m at next level, right associativity).

(** A pure step that may throw. *)
Definition lift {A} (r : result A) : B A := fun s => (r, s).

(** [await] of a call or a mail: the effect happens, then the outcome. *)
Definition await {A} (effect : Effect) (outcome : result A) : B A :=
  fun s => (outcome, mkState (orders_json s) (effects s ++ [effect])).

Definition guarded {A} (body : B A) (handler : string -> A)
  : State -> A * State :=
  fun s =>
    match body s with
    | (Ok a, s') => (a, s')
    | (Throw e, s') => (handler e, s')
    end.

(** [(a || fallback)], on a number field. *)
Definition number_or (a : option Q) (fallback : Q) : Q :=
  match a with
  | Some q => if Qeq_bool q 0 then fallback else q
  | None => fallback
  end.

(** The loop of [POST /api/create-paystack-order], in exact arithmetic. *)
Definition cart_total (cartItems : list Line) : Q :=
  fold_left (fun total i =>
               (total + number_or (price i) 0 * number_or (quantity i) 1)%Q)
            cartItems 0%Q.

(** [POST /api/create-paystack-order]: [cartItems] is [None] when the field
    is missing; [reply] is [response.data]. *)
Definition create_paystack_order (customer : option Customer)
    (cartItems : option (list Line)) (reply : result jsval)
  : State -> Response * State :=
  if String.eqb (field_or customer email EmptyString) EmptyString then
    fun s =>
      (json 400 [("success", JBool false);
                 ("error", JStr "Customer info missing")], s)
  else
    guarded
      (items <~ match cartItems with
                | Some items => pure items
                | None =>
                    raise "Cannot read properties of undefined (reading 'forEach')"
                end ;;
       let totalKobo := (cart_total items * inject_Z 100)%Q in
       data <~ await
         (PaystackInitialize (field_or customer email EmptyString) totalKobo)
         reply ;;
       status <~ lift (get_prop data "status") ;;
       if truthy status then
         inner <~ lift (get_prop data "data") ;;
         url <~ lift (get_prop inner "authorization_url") ;;
         if truthy url then
           pure (json 200 [("success", JBool true);
                           ("authorizationUrl", url)])
         else
           message <~ lift (get_prop data "message") ;;
           pure (json 500 [("success", JBool false);
                           ("error", js_or message (JStr "Paystack error"))])
       else
         message <~ lift (get_prop data "message") ;;
         pure (json 500 [("success", JBool false);
                         ("error", js_or message (JStr "Paystack error"))]))
      (fun message =>
         json 500 [("success", JBool false);
                   ("error", JStr (message_or message "Server error"))]).

(** [GET /api/paystack-callback]: [reply] is [verifyResp.data]. *)
Definition paystack_callback (reference : option string)
    (reply : result jsval) : State -> Response * State :=
  match reference with
  | None | Some EmptyString =>
      fun s =>
        (json 400 [("success", JBool false);
                   ("message", JStr "Reference missing")], s)
  | Some reference =>
      guarded
        (verifyResp <~ await (PaystackVerify reference) reply ;;
         data <~ lift (get_prop verifyResp "data") ;;
         status <~ lift (get_prop data "status") ;;
         if is_string status "success" then
           pure (json 200 [("success", JBool true); ("order", data)])
         else
           pure (json 400 [("success", JBool false);
                           ("message", JStr "Payment failed")]))
        (fun message =>
           json 500 [("success", JBool false); ("error", JStr message)])
  end.

(** A property read that was already found not to throw. *)
Definition prop (v : jsval) (key : string) : jsval :=
  match get_prop v key with
  | Ok x => x
  | Throw _ => JUndefined
  end.

(** An entry of [supplierOrder.items]. *)
Definition supplier_item (i : jsval) : result jsval :=
  match get_prop i "supplier_sku" with
  | Throw e => Throw e
  | Ok supplier_sku =>
      Ok (JObj [("sku", js_or (js_or supplier_sku (prop i "id"))
                          (prop i "sku"));
                ("qty", js_or (js_or (prop i "quantity") (prop i "qty"))
                          (JInt 1));
                ("title", js_or (prop i "title") (prop i "name"));
                ("price", prop i "price")])
  end.

(** [cartItems.map(...)]: the first item that throws ends the loop. *)
Fixpoint supplier_items (cartItems : list jsval) : result (list jsval) :=
  match cartItems with
  | [] => Ok []
  | i :: rest =>
      match supplier_item i with
      | Throw e => Throw e
      | Ok item =>
          match supplier_items rest with
          | Throw e => Throw e
          | Ok items => Ok (item :: items)
          end
      end
  end.

(** What the request meets outside the process: the retrieved intent, the
    supplier's reply ([supResp.data]), the two values of
    [Math.floor(Math.random() * 1e6)], the outcome of [fs.writeFileSync]
    with the file that a failed write leaves behind, and the outcome of each
    mail. *)
Record Outside : Type := mkOutside {
  intent : result jsval;
  supplier : result jsval;
  random_order : Z;
  random_tracking : Z;
  write : result unit;
  torn : File;
  customer_mail : result unit;
  admin_mail : result unit
}.

(** [saveOrderLocally(order)]: [existing] is the empty array when there is
    no file, and what the file parses to otherwise; only an array has a
    [push]. Nothing is written before the write itself. *)
Definition saveOrderLocally (out : Outside) (order : jsval) : B unit :=
  fun s =>
    let existing :=
      match orders_json s with
      | Absent => Ok (JArr [])
      | Holds parsed => parsed
      end in
    match existing with
    | Throw message => (Throw message, s)
    | Ok (JArr saved) =>
        match write out with
        | Ok _ =>
            (Ok tt,
             mkState (Holds (Ok (JArr (saved ++ [order])%list))) (effects s))
        | Throw message => (Throw message, mkState (torn out) (effects s))
        end
    | Ok JNull =>
        (Throw "Cannot read properties of null (reading 'push')", s)
    | Ok _ => (Throw "existing.push is not a function", s)
    end.

(** The supplier is contacted when both its URL and its key are set. *)
Definition supplier_configured (env : Env) : bool :=
  negb (unset (SUPPLIER_API_URL env)) && negb (unset (SUPPLIER_API_KEY env)).

(** [supplierResponse]. *)
Definition supplier_response (env : Env) (out : Outside)
    (supplierOrder : jsval) : B jsval :=
  if supplier_configured env then
    fun s =>
      match await (SupplierPost supplierOrder) (supplier out) s with
      | (Ok data, s') => (Ok data, s')
      | (Throw message, s') =>
          (Ok (JObj [("success", JBool false);
                     ("error",
                      JStr (message_or message "Supplier call failed"))]),
           s')
      end
  else
    pure (JObj [("success", JBool true);
                ("supplier_order_id",
                 JStr ("SIM-" ++ String_of_int (random_order out)));
                ("tracking",
                 JStr ("https://tracking.example/"
                         ++ String_of_int (random_tracking out)))]).

(** The mails of an order; an error in either ends the block and is
    dropped. *)
Definition send_confirmations (env : Env) (out : Outside)
    (customer : jsval) (local_order_id : string) : B unit :=
  fun s =>
    let to_admin :=
      await (SendMail
               (JStr (Catalog.string_or (EMAIL_TO_ADMIN env)
                        "you@yourdomain.com"))
               ("New order placed — " ++ local_order_id))
            (admin_mail out) in
    let block :=
      if truthy customer && truthy (prop customer "email") then
        (_ <~ await (SendMail (prop customer "email")
                       ("Order confirmation — " ++ local_order_id))
                    (customer_mail out) ;;
         to_admin)
      else to_admin in
    (Ok tt, snd (block s)).

Section PlaceOrder.

(** [new Date(ms).toISOString()]. *)
Variable toISOString : Z -> string.

(** [supplierOrder], built at time [now]. *)
Definition supplier_order (now : Z) (paymentIntentId : string)
    (customer : jsval) (items : list jsval) : jsval :=
  JObj [("merchant_order_id", JStr ("ds-" ++ String_of_int now));
        ("customer", js_or customer (JObj []));
        ("items", JArr items);
        ("payment", JObj [("stripe_payment_intent", JStr paymentIntentId)])].

(** [savedOrder], built at time [saved_at]. *)
Definition saved_order (now saved_at : Z) (paymentIntentId : string)
    (customer : jsval) (items : list jsval) (supplierResponse : jsval)
  : jsval :=
  JObj [("local_order_id", JStr ("ds-" ++ String_of_int now));
        ("payment_intent", JStr paymentIntentId);
        ("supplier_response", supplierResponse);
        ("payload", supplier_order now paymentIntentId customer items);
        ("customer", js_or customer (JObj []));
        ("created_at", JStr (toISOString saved_at))].

(** [POST /api/place-order]: [now] is the clock when the order is built,
    [saved_at] when it is saved. *)
Definition place_order (env : Env) (now saved_at : Z) (out : Outside)
    (cartItems : option (list jsval)) (paymentIntentId : option string)
    (customer : jsval) : State -> Response * State :=
  match cartItems, paymentIntentId with
  | None, _ | Some [], _ =>
      fun s =>
        (json 400 [("success", JBool false);
                   ("message", JStr "Invalid order payload")], s)
  | Some _, None | Some _, Some EmptyString =>
      fun s =>
        (json 400 [("success", JBool false);
                   ("message", JStr "Missing paymentIntentId")], s)
  | Some cart, Some paymentIntentId =>
      guarded
        (intent <~ await (RetrieveIntent paymentIntentId) (intent out) ;;
         status <~ lift (if truthy intent then get_prop intent "status"
                         else Ok JUndefined) ;;
         if negb (truthy intent) || negb (is_string status "succeeded") then
           pure (json 400 [("success", JBool false);
                           ("message", JStr "Payment not completed")])
         else
           items <~ lift (supplier_items cart) ;;
           let supplierOrder :=
             supplier_order now paymentIntentId customer items in
           supplierResponse <~ supplier_response env out supplierOrder ;;
           let savedOrder :=
             saved_order now saved_at paymentIntentId customer items
               supplierResponse in
           _ <~ saveOrderLocally out savedOrder ;;
           _ <~ send_confirmations env out customer
                  ("ds-" ++ String_of_int now) ;;
           pure (json 200 [("success", JBool true); ("order", savedOrder)]))
        (fun message =>
           json 500 [("success", JBool false);
                     ("message", JStr (message_or message "Internal error"))])
  end.

End PlaceOrder.

End Backend.

(** ** Further predicates on the orders table *)

(** The columns that are written at draft time. *)
Definition draft_columns (o : Order) :=
  (id o, local_order_id o, payment_id o,
   (customer_name o, customer_email o, customer_phone o, customer_address o),
   items_json o,
   (total_cents_usd o, total_kobo_ngn o, supplier_share_cents o,
    profit_cents o),
   supplier_response o, created_at o).

(** A dollar amount with at most two decimals: [cents / 100]. *)
Definition cent_precise (q : Q) (cents : Z) : Prop := (q == cents # 100)%Q.

(** The test of the first branch of [toCents]. *)
Definition taken_for_cents (q : Q) : bool :=
  Number_isInteger q && gt q (inject_Z 1000).

(** A row is either an open draft without a stamp or a paid order with
    one. *)
Definition stamp_matches_status (o : Order) : Prop :=
  (status o = "pending" /\ processed_at o = None) \/
  (status o = "paid" /\ exists stamp, processed_at o = Some stamp).

(** ** Predicates on the effects of backend.js *)

(** What the supplier step of an order sends. *)
Definition supplier_calls (env : Backend.Env) (supplierOrder : jsval)
  : list Backend.Effect :=
  if Backend.supplier_configured env then [Backend.SupplierPost supplierOrder]
  else [].

Definition is_mail (e : Backend.Effect) : bool :=
  match e with
  | Backend.SendMail _ _ => true
  | _ => false
  end.

(** The array that [saveOrderLocally] extends: empty without a file, the
    content of a file that holds an array; none otherwise. *)
Definition saved_orders (file : Backend.File) : option (list jsval) :=
  match file with
  | Backend.Absent => Some []
  | Backend.Holds (Ok (JArr saved)) => Some saved
  | Backend.Holds _ => None
  end.

(** ** Sample catalog and orders *)

Module Stock.

Definition earbuds : Catalog.Product :=
  Catalog.mkProduct "p1" "Wireless Earbuds" (Some 1999) (Some 1500) "EB-001"
    (Some "earbuds.png").

Definition blender : Catalog.Product :=
  Catalog.mkProduct "p2" "Portable Blender" (Some 2950) (Some 2200) "PB-07"
    (Some "blender.png").

Definition shelf : list Catalog.Product := [earbuds; blender].

(** [{ id: "p3", title: "Fitness Band", price: 14.75, supplierCost: 10,
       supplier_sku: "FB-21" }]. *)
Definition band : Catalog.NewProduct :=
  Catalog.mkNewProduct (Some "p3") (Some "Fitness Band")
    (Some (Fin (1475 # 100))) (Fin (inject_Z 10)) (Some "FB-21") None.

(** A replacement for [p1] at 25.00. *)
Definition earbuds_again : Catalog.NewProduct :=
  Catalog.mkNewProduct (Some "p1") (Some "Wireless Earbuds 2")
    (Some (Fin (inject_Z 25))) NaN None None.

(** A retrieved payment intent that was paid. *)
Definition paid_intent : jsval :=
  JObj [("id", JStr "pi_123"); ("status", JStr "succeeded")].

Definition basket : list jsval :=
  [JObj [("id", JStr "p1"); ("title", JStr "Wireless Earbuds");
         ("price", JInt 1999); ("quantity", JInt 2)]].

Definition buyer : jsval :=
  JObj [("name", JStr "Ada"); ("email", JStr "ada@example.com")].

(** The supplier is down and the mail server refuses the customer's
    mail. *)
Definition bad_day : Backend.Outside :=
  Backend.mkOutside (Ok paid_intent) (Throw "ECONNREFUSED") 4711 815
    (Ok tt) Backend.Absent (Throw "550 mailbox unavailable") (Ok tt).

(** The payment is not completed. *)
Definition unpaid : Backend.Outside :=
  Backend.mkOutside (Ok (JObj [("status", JStr "requires_payment_method")]))
    (Ok JNull) 1 2 (Ok tt) Backend.Absent (Ok tt) (Ok tt).

(** Everything outside works. *)
Definition good_day : Backend.Outside :=
  Backend.mkOutside (Ok paid_intent) (Ok (JObj [("success", JBool true)]))
    4711 815 (Ok tt) Backend.Absent (Ok tt) (Ok tt).

(** [orders.json] holds an object instead of an array. *)
Definition spoilt_store : Backend.State :=
  Backend.mkState (Backend.Holds (Ok (JObj [("orders", JArr [])]))) [].

Definition supplier_env : Backend.Env :=
  Backend.mkEnv (Some "https://supplier.example/orders") (Some "key") None.

(** A stand-in for the rendering of dates. *)
Definition stamp (ms : Z) : string := String_of_int ms.

Definition empty_store : Backend.State :=
  Backend.mkState Backend.Absent [].

End Stock.

Local Open Scope list_scope.
Local Open Scope Z_scope.

(** ** Monetary normaliser *)

Section Normaliser.

Lemma fromCents_unfold (x : Z) : fromCents (Some x) = (x * 1 # 100)%Q.
Proof. reflexivity. Qed.

(** Scaling a cent amount back up and rounding gives the amount. *)
Lemma Math_round_times_100 (x : Z) :
  Math_round ((x * 1 # 100) * inject_Z 100) = x.
Proof.
  unfold Math_round, Qfloor, Qmult, Qplus, inject_Z; simpl.
  symmetry. apply (Z.div_unique _ 200 x 100); lia.
Qed.

Lemma isInteger_fromCents (x : Z) :
  Number_isInteger (fromCents (Some x)) = true <-> (100 | x).
Proof.
  rewrite fromCents_unfold. unfold Number_isInteger; simpl.
  rewrite Z.mul_1_r, Z.eqb_eq. split.
  - intros H. apply Z.mod_divide; [lia | exact H].
  - intros H. apply Z.mod_divide in H; [exact H | lia].
Qed.

Lemma gt_fromCents (x : Z) :
  gt (fromCents (Some x)) (inject_Z 1000) = (100000 <? x).
Proof.
  rewrite fromCents_unfold. unfold gt, Qle_bool; simpl.
  destruct (Z.leb_spec (x * 1 * 1) 100000), (Z.ltb_spec 100000 x);
    simpl; lia.
Qed.

Lemma Qfloor_fromCents (x : Z) : Qfloor (fromCents (Some x)) = x / 100.
Proof. rewrite fromCents_unfold. unfold Qfloor. now rewrite Z.mul_1_r. Qed.

(** [toCents] on an integer: kept above 1000, scaled otherwise. *)
Lemma toCents_integer (z : Z) :
  toCents (Fin (inject_Z z)) = if 1000 <? z then z else 100 * z.
Proof.
  unfold toCents, Number_isInteger, gt, Qle_bool, Math_round, Qfloor, Qmult,
    Qplus, inject_Z.
  cbn -[Z.mul Z.div Z.modulo Z.add Z.leb Z.ltb].
  rewrite Z.mod_1_r, Z.eqb_refl.
  destruct (Z.leb_spec (z * 1) (1000 * 1)), (Z.ltb_spec 1000 z);
    cbn -[Z.mul Z.div Z.modulo Z.add]; try lia.
  - symmetry. apply (Z.div_unique _ 2 _ 1); lia.
  - apply Z.div_1_r.
Qed.

End Normaliser.

(** C5, as amended: for every integer [x] divisible by 100,
    [toCents(fromCents(x))] is [x] as long as [x <= 100000] (so on
    [1000 < x <= 100000]); above 100000 the quotient [x / 100] is itself an
    integer above 1000, is taken for cents and comes back unchanged, so the
    result is [x / 100]. *)
Theorem toCents_fromCents (x : Z) :
  (100 | x) ->
  (x <= 100000 -> toCents (Fin (fromCents (Some x))) = x) /\
  (100000 < x -> toCents (Fin (fromCents (Some x))) = x / 100).
Proof.
  intros Hd. unfold toCents.
  rewrite gt_fromCents. apply isInteger_fromCents in Hd. rewrite Hd. simpl.
  split; intros H.
  - destruct (Z.ltb_spec 100000 x); [lia|].
    rewrite fromCents_unfold. apply Math_round_times_100.
  - destruct (Z.ltb_spec 100000 x); [|lia]. apply Qfloor_fromCents.
Qed.

Lemma toCents_fromCents_witness :
  (100 | 5000) /\ toCents (Fin (fromCents (Some 5000))) = 5000.
Proof.
  assert (H : (100 | 5000)) by (exists 50; reflexivity).
  split; [exact H|].
  destruct (toCents_fromCents 5000 H) as [Hlow _]. apply Hlow. lia.
Defined.

(** C5, as stated, fails at [x = 200000]: divisible by 100 and above 1000,
    yet the round trip returns 2000. *)
Lemma toCents_fromCents_200000 :
  (100 | 200000) /\ 1000 < 200000 /\
  toCents (Fin (fromCents (Some 200000))) = 2000 /\
  toCents (Fin (fromCents (Some 200000))) <> 200000.
Proof.
  split; [exists 2000; reflexivity|].
  split; [lia|]. split; [reflexivity|]. vm_compute. discriminate.
Qed.

(** C10: [toCents(1000)] is 100000 and [toCents(1001)] is 1001; of the
    integers exactly those above 1000 are returned unchanged. *)
Theorem toCents_boundary :
  toCents (Fin (inject_Z 1000)) = 100000 /\
  toCents (Fin (inject_Z 1001)) = 1001 /\
  (forall z : Z,
      toCents (Fin (inject_Z z)) = if 1000 <? z then z else 100 * z).
Proof.
  split; [reflexivity|]. split; [reflexivity|]. exact toCents_integer.
Qed.

(** ** Shipping fees *)

Lemma getShippingFee_Lagos : getShippingFee (Some "Lagos") = JInt 2000.
Proof. reflexivity. Qed.

Lemma getShippingFee_unknown :
  getShippingFee (Some "Unknown-Region") = JInt 3500.
Proof. reflexivity. Qed.

Lemma getShippingFee_missing : getShippingFee None = JInt 3500.
Proof. reflexivity. Qed.

(** Away from the names that [Object.prototype] defines, the result is a
    fee of the table. *)
Lemma getShippingFee_fee (state : option string) :
  inherited (property_key state) = false ->
  exists fee : Z, 2000 <= fee <= 3500 /\ getShippingFee state = JInt fee.
Proof.
  intros Hin. unfold getShippingFee, lookup, own_property. rewrite Hin.
  set (key := property_key state). clearbody key.
  cbn -[String.eqb].
  repeat match goal with
         | |- context [String.eqb ?a key] => destruct (String.eqb a key)
         end;
    cbn; eexists; (split; [|reflexivity]); lia.
Qed.

(** C6 at the region ["toString"]: the lookup finds the method inherited
    from [Object.prototype], which is truthy, so the default does not apply
    and the result is that function, not a fee. *)
Theorem getShippingFee_toString :
  getShippingFee (Some "toString") = JBuiltin "Object.prototype.toString" /\
  (forall fee : Z, getShippingFee (Some "toString") <> JInt fee).
Proof.
  split; [reflexivity|]. intros fee. vm_compute. discriminate.
Qed.

(** ** The orders table *)

Section Table.

Lemma rows_of_app (r : string) (t1 t2 : list Order) :
  rows_of r (t1 ++ t2) = rows_of r t1 ++ rows_of r t2.
Proof. apply filter_app. Qed.

Lemma violates_unique_rows (r : string) (table : list Order) :
  violates_unique (Some r) table
  = negb (Nat.eqb (length (rows_of r table)) 0).
Proof.
  induction table as [|o rest IH]; simpl; [reflexivity|].
  destruct (same_payment_id (payment_id o) (Some r)); simpl; auto.
Qed.

(** Under the constraint a reference names at most one row. *)
Lemma unique_rows_le_1 (r : string) (table : list Order) :
  unique_payment_ids table = true -> (length (rows_of r table) <= 1)%nat.
Proof.
  induction table as [|o rest IH]; simpl; [lia|].
  intros H. apply andb_true_iff in H as [Hfresh Hrest].
  specialize (IH Hrest).
  destruct (same_payment_id (payment_id o) (Some r)) eqn:Ho; simpl;
    [|exact IH].
  destruct (payment_id o) as [p|]; simpl in Ho; [|discriminate].
  apply String.eqb_eq in Ho; subst p.
  rewrite violates_unique_rows in Hfresh.
  destruct (length (rows_of r rest)); simpl in *; [lia | discriminate].
Qed.

Lemma same_payment_id_sym (a b : option string) :
  same_payment_id a b = same_payment_id b a.
Proof. destruct a, b; simpl; auto using String.eqb_sym. Qed.

Lemma violates_unique_app (p : option string) (t1 t2 : list Order) :
  violates_unique p (t1 ++ t2) = violates_unique p t1 || violates_unique p t2.
Proof. apply existsb_app. Qed.

(** Appending a row whose reference is new keeps the constraint. *)
Lemma unique_snoc (table : list Order) (o : Order) :
  unique_payment_ids table = true ->
  violates_unique (payment_id o) table = false ->
  unique_payment_ids (table ++ [o]) = true.
Proof.
  induction table as [|x rest IH]; simpl; intros Hu Hv; [reflexivity|].
  apply andb_true_iff in Hu as [Hx Hrest].
  apply orb_false_iff in Hv as [Hxo Hv].
  rewrite violates_unique_app, IH by assumption. simpl.
  rewrite same_payment_id_sym, Hxo.
  apply negb_true_iff in Hx. rewrite Hx. reflexivity.
Qed.

Lemma violates_unique_map (f : Order -> Order) (p : option string)
    (table : list Order) :
  (forall o, payment_id (f o) = payment_id o) ->
  violates_unique p (map f table) = violates_unique p table.
Proof.
  intros Hf. induction table as [|o rest IH]; simpl; [reflexivity|].
  now rewrite Hf, IH.
Qed.

Lemma unique_map (f : Order -> Order) (table : list Order) :
  (forall o, payment_id (f o) = payment_id o) ->
  unique_payment_ids (map f table) = unique_payment_ids table.
Proof.
  intros Hf. induction table as [|o rest IH]; simpl; [reflexivity|].
  now rewrite Hf, IH, violates_unique_map.
Qed.

End Table.

(** ** Draft creation *)

Lemma createDraftOrder_spec now p items cust a b c d w :
  createDraftOrder now p items cust a b c d w =
  (Ok ("o" ++ String_of_int now)%string,
   mkWorld
     (if violates_unique p (orders w) then orders w
      else orders w ++ [draft_row now p items cust a b c d w])
     (outbound w) (console w)
     (next_id (sqlite_sequence w) (orders w))).
Proof.
  unfold createDraftOrder, bind, insert_order, ret. simpl.
  destruct (violates_unique p (orders w)); reflexivity.
Qed.

(** The same statement without OR IGNORE would fail on a repeated
    reference. *)
Remark plain_insert_throws now row w :
  violates_unique
    (payment_id (row (next_id (sqlite_sequence w) (orders w))
                     (CURRENT_TIMESTAMP now))) (orders w) = true ->
  exists e, insert_order OrAbort now row w = (Throw e, w).
Proof. unfold insert_order. intros ->. eexists. reflexivity. Qed.

(** C1: on a table that satisfies the UNIQUE constraint, two calls of
    [createDraftOrder] with the same payment reference [r] (and any other
    arguments) both return normally; the second changes no row, adds none
    and leaves the outbound calls and the console alone (the skipped row
    only uses up an id of the sequence); the table then holds exactly one
    row under [r]; and when [r] was new, that row is the one built from the
    first call's arguments. *)
Theorem createDraftOrder_idempotent
    (w : World) (r : string) (now1 now2 : Z)
    (items1 items2 : option (list CartItem)) (cust1 cust2 : option Customer)
    (usd1 kobo1 sup1 profit1 usd2 kobo2 sup2 profit2 : option jsint) :
  unique_payment_ids (orders w) = true ->
  exists w1,
    createDraftOrder now1 (Some r) items1 cust1 usd1 kobo1 sup1 profit1 w
      = (Ok ("o" ++ String_of_int now1)%string, w1) /\
    createDraftOrder now2 (Some r) items2 cust2 usd2 kobo2 sup2 profit2 w1
      = (Ok ("o" ++ String_of_int now2)%string,
         mkWorld (orders w1) (outbound w1) (console w1)
           (next_id (sqlite_sequence w1) (orders w1))) /\
    length (rows_of r (orders w1)) = 1%nat /\
    (rows_of r (orders w) = [] ->
     orders w1 = orders w ++
       [draft_row now1 (Some r) items1 cust1 usd1 kobo1 sup1 profit1 w]).
Proof.
  intros Huniq. rewrite createDraftOrder_spec.
  pose proof (unique_rows_le_1 r _ Huniq) as Hle.
  pose proof (violates_unique_rows r (orders w)) as Hv.
  eexists. split; [reflexivity|]. rewrite createDraftOrder_spec. simpl.
  destruct (violates_unique (Some r) (orders w)) eqn:Hc.
  - rewrite Hc. split; [reflexivity|]. split.
    + destruct (length (rows_of r (orders w))) as [|[|n]]; simpl in *;
        try discriminate; lia.
    + intros Hnil. rewrite Hnil in Hv. discriminate.
  - assert (Hz : length (rows_of r (orders w)) = 0%nat).
    { destruct (length (rows_of r (orders w))); [reflexivity | discriminate]. }
    set (new := draft_row now1 (Some r) items1 cust1 usd1 kobo1 sup1 profit1
                  w).
    assert (Hnew : rows_of r [new] = [new]).
    { unfold rows_of; simpl. now rewrite String.eqb_refl. }
    rewrite violates_unique_rows, rows_of_app, Hnew, length_app, Hz. simpl.
    split; [reflexivity|]. split; [reflexivity|]. intros _. reflexivity.
Qed.

Lemma createDraftOrder_idempotent_witness :
  unique_payment_ids (orders (run Sample.config Sample.paid_trace initial))
    = true /\
  exists w1,
    createDraftOrder 7000000 (Some "ref_2") (Some Sample.cart)
      (Some Sample.abuja) None (Some (Some 4500)) None None
      (run Sample.config Sample.paid_trace initial)
      = (Ok "o7000000", w1) /\
    createDraftOrder 8000000 (Some "ref_2") (Some Sample.loss_cart) None
      (Some (Some 1)) (Some None) (Some (Some 2)) (Some (Some 3)) w1
      = (Ok "o8000000",
         mkWorld (orders w1) (outbound w1) (console w1)
           (next_id (sqlite_sequence w1) (orders w1))) /\
    length (rows_of "ref_2" (orders w1)) = 1%nat /\
    (rows_of "ref_2" (orders (run Sample.config Sample.paid_trace initial))
       = [] ->
     orders w1 =
       orders (run Sample.config Sample.paid_trace initial) ++
       [draft_row 7000000 (Some "ref_2") (Some Sample.cart)
          (Some Sample.abuja) None (Some (Some 4500)) None None
          (run Sample.config Sample.paid_trace initial)]).
Proof.
  split; [reflexivity|].
  apply (createDraftOrder_idempotent
           (run Sample.config Sample.paid_trace initial) "ref_2"
           7000000 8000000).
  reflexivity.
Defined.

(** The ids of three drafts under [ref_1], [ref_1] again and [ref_2]: the
    ignored draft has used up the id 2. *)
Example ids_after_ignored_draft :
  let draft now r w :=
    snd (createDraftOrder now (Some r) None None None None None None w) in
  map id (orders (draft 3000 "ref_2"
                    (draft 2000 "ref_1" (draft 1000 "ref_1" initial))))
  = [1; 3].
Proof. reflexivity. Qed.

(** ** What each request does to the table *)

Create HintDb ledger.

Lemma createDraftOrder_orders now p items cust a b c d w :
  exists new,
    orders (snd (createDraftOrder now p items cust a b c d w))
      = orders w ++ new /\
    appended (orders w) new.
Proof.
  rewrite createDraftOrder_spec. simpl.
  destruct (violates_unique p (orders w)) eqn:Hv.
  - exists []. split; [now rewrite app_nil_r | constructor].
  - eexists. split; [reflexivity|].
    constructor; [split; reflexivity | exact Hv].
Qed.

Ltac unchanged :=
  solve [exists []; simpl; rewrite ?app_nil_r; split; [reflexivity | constructor]].

Ltac use_draft :=
  match goal with
  | |- context [createDraftOrder ?n ?p ?i ?c ?a ?b ?cc ?d ?w] =>
      let new := fresh "new" in
      destruct (createDraftOrder_orders n p i c a b cc d w) as (new & ? & ?);
      destruct (createDraftOrder n p i c a b cc d w) as [[?|?] ?];
      simpl in *; exists new; auto
  end.

Lemma paystack_orders now body reply w :
  exists new,
    orders (snd (createPaystackOrderHandler now body reply w))
      = orders w ++ new /\
    appended (orders w) new.
Proof.
  unfold createPaystackOrderHandler.
  destruct (cartItems body) as [[|it items]|]; simpl; try unchanged.
  unfold try_catch, bind, await_call, throw. simpl.
  destruct reply as [[d|]|e]; simpl; try unchanged.
  use_draft.
Qed.

Lemma opay_orders env now body rate_reply opay_reply w :
  exists new,
    orders (snd (createOpayOrderHandler env now body rate_reply opay_reply w))
      = orders w ++ new /\
    appended (orders w) new.
Proof.
  unfold createOpayOrderHandler.
  destruct (cartItems body) as [[|it items]|]; simpl; try unchanged.
  destruct (opay_totals (it :: items)) as [usdTotal usdSupplierTotal].
  unfold fetchUsdToNgnRate.
  destruct (unset (EXCHANGE_RATE_API_KEY env));
    unfold try_catch, bind, await_call, throw, ret; simpl; try unchanged.
  destruct rate_reply as [[q|]|e]; simpl; try unchanged.
  destruct (Qeq_bool q 0); simpl; try unchanged.
  destruct (OPAY_SECRET_KEY env); simpl; try unchanged.
  destruct opay_reply as [v|e]; simpl; try unchanged.
  use_draft.
Qed.

Lemma verify_orders now reference reply w :
  orders (snd (verifyPaystackPayment now reference reply w)) =
  map (touch now (PaystackCallback reference reply)) (orders w).
Proof.
  unfold verifyPaystackPayment, touch, verifies.
  destruct reference as [[|c r]|]; simpl; try (now rewrite map_id).
  { destruct reply; simpl; now rewrite map_id. }
  unfold try_catch, bind, await_call, update_paid, ret.
  destruct reply as [v|e]; simpl; [|now rewrite map_id].
  rewrite Ascii.eqb_refl, String.eqb_refl. simpl.
  destruct (get_prop v "data") as [data|e]; simpl; [|now rewrite map_id].
  destruct (get_prop data "status") as [st|e]; simpl; [|now rewrite map_id].
  destruct (is_string st "success"); simpl;
    [reflexivity | now rewrite map_id].
Qed.

Lemma payment_intent_orders env cartItems reply w :
  orders (snd (Ship.create_payment_intent env cartItems reply w)) = orders w.
Proof.
  unfold Ship.create_payment_intent.
  destruct cartItems as [[|it items]|]; simpl; auto.
  destruct (Ship.totals (it :: items)) as [total supplierTotal].
  destruct (Ship.negative _); simpl; auto.
  unfold try_catch, bind, await_call, ret.
  destruct reply as [v|e]; simpl; auto.
  destruct (get_prop v "client_secret"); reflexivity.
Qed.

Lemma handleStripeEvent_world event w :
  orders (snd (Ship.handleStripeEvent event w)) = orders w /\
  outbound (snd (Ship.handleStripeEvent event w)) = outbound w.
Proof.
  unfold Ship.handleStripeEvent, bind, Ship.event_object_id, Ship.console_log.
  destruct (get_prop event "type") as [type|e]; simpl; auto.
  destruct (is_string type "payment_intent.succeeded"); simpl.
  { destruct (get_prop event "data") as [d|]; simpl; auto.
    destruct (get_prop d "object") as [ob|]; simpl; auto.
    destruct (get_prop ob "id"); simpl; auto. }
  destruct (is_string type "payment_intent.payment_failed"); simpl; auto.
  destruct (get_prop event "data") as [d|]; simpl; auto.
  destruct (get_prop d "object") as [ob|]; simpl; auto.
  destruct (get_prop ob "id"); simpl; auto.
Qed.

Lemma acknowledge_world event w :
  orders (snd (Ship.acknowledge event w)) = orders w /\
  outbound (snd (Ship.acknowledge event w)) = outbound w.
Proof.
  unfold Ship.acknowledge.
  pose proof (handleStripeEvent_world event w) as H.
  destruct (Ship.handleStripeEvent event w) as [[u|e] w']; simpl in *;
    exact H.
Qed.

Lemma webhook_orders parse construct env body sig w :
  orders (snd (Ship.webhook parse construct env body sig w)) = orders w.
Proof.
  unfold Ship.webhook.
  destruct (unset (Ship.STRIPE_WEBHOOK_SECRET env)).
  - destruct (parse body); simpl; auto. apply acknowledge_world.
  - destruct (construct body sig _); simpl; auto. apply acknowledge_world.
Qed.

Lemma webhook_parsed_orders parse construct env props sig w :
  orders (snd (Ship.webhook_parsed parse construct env props sig w))
  = orders w.
Proof.
  unfold Ship.webhook_parsed.
  destruct (unset (Ship.STRIPE_WEBHOOK_SECRET env)).
  - destruct (Ship.parsed_toString props) as [text|e]; simpl; auto.
    destruct (parse text); simpl; auto. apply acknowledge_world.
  - destruct (construct props sig _); simpl; auto. apply acknowledge_world.
Qed.

(** Every request rewrites the rows in place with [touch] and appends at
    most one fresh draft. *)
Lemma handle_orders cfg now req w :
  exists new,
    orders (snd (handle cfg now req w))
      = map (touch now req) (orders w) ++ new /\
    appended (orders w) new.
Proof.
  destruct req as [body reply|reference reply|body rr orr|items reply|body sig
                  |props sig];
    simpl handle.
  - change (touch now (CreatePaystackOrder body reply))
      with (fun o : Order => o).
    rewrite map_id. apply paystack_orders.
  - rewrite verify_orders. unchanged.
  - change (touch now (CreateOpayOrder body rr orr)) with (fun o : Order => o).
    rewrite map_id. apply opay_orders.
  - rewrite payment_intent_orders.
    change (touch now (CreatePaymentIntent items reply))
      with (fun o : Order => o).
    rewrite map_id. unchanged.
  - rewrite webhook_orders.
    change (touch now (Webhook body sig)) with (fun o : Order => o).
    rewrite map_id. unchanged.
  - rewrite webhook_parsed_orders.
    change (touch now (WebhookJson props sig)) with (fun o : Order => o).
    rewrite map_id. unchanged.
Qed.

Lemma verifies_eq req r r' reply :
  req = PaystackCallback (Some r) reply ->
  verifies req r' = String.eqb r r' && verifies req r.
Proof.
  intros ->. unfold verifies. destruct reply as [v|e]; simpl.
  - rewrite String.eqb_refl. simpl.
    destruct (String.eqb r r'); reflexivity.
  - now rewrite andb_false_r.
Qed.

(** [touch] in closed form: a successful verify of the row's reference sets
    [status] and [processed_at]; nothing else changes anything. *)
Lemma touch_spec now req o :
  touch now req o =
  if stamped req o then
    mkOrder (id o) (local_order_id o) (payment_id o) "paid"
      (customer_name o) (customer_email o) (customer_phone o)
      (customer_address o) (items_json o) (total_cents_usd o)
      (total_kobo_ngn o) (supplier_share_cents o) (profit_cents o)
      (supplier_response o) (created_at o) (Some (CURRENT_TIMESTAMP now))
  else o.
Proof.
  unfold touch, stamped.
  destruct req as [body reply|[r|] reply|body rr orr|items reply|body sig
                  |props sig];
    try (destruct (payment_id o); reflexivity).
  unfold mark_paid.
  destruct (payment_id o) as [p|]; simpl same_payment_id.
  - rewrite (verifies_eq _ r p reply eq_refl), String.eqb_sym.
    destruct (verifies _ r); [|now rewrite andb_false_r].
    rewrite andb_true_r. reflexivity.
  - destruct (verifies _ r); reflexivity.
Qed.

Lemma touch_paid now req o :
  status o = "paid" -> status (touch now req o) = "paid".
Proof. rewrite touch_spec. destruct (stamped req o); auto. Qed.

Lemma touch_id now req o : id (touch now req o) = id o.
Proof. rewrite touch_spec. destruct (stamped req o); auto. Qed.

Lemma touch_payment_id now req o :
  payment_id (touch now req o) = payment_id o.
Proof. rewrite touch_spec. destruct (stamped req o); auto. Qed.

Lemma touch_open_or_paid now req o :
  open_or_paid o -> open_or_paid (touch now req o).
Proof.
  rewrite touch_spec. destruct (stamped req o); auto. intros _. now right.
Qed.

#[local] Hint Resolve touch_paid touch_open_or_paid : ledger.

Lemma handle_nth cfg now req w i o :
  nth_error (orders w) i = Some o ->
  nth_error (orders (snd (handle cfg now req w))) i = Some (touch now req o).
Proof.
  intros H. destruct (handle_orders cfg now req w) as (new & -> & _).
  rewrite nth_error_app1.
  - now rewrite nth_error_map, H.
  - rewrite length_map. apply nth_error_Some. congruence.
Qed.

Lemma handle_new cfg now req w :
  Forall fresh_draft
    (skipn (length (orders w)) (orders (snd (handle cfg now req w)))).
Proof.
  destruct (handle_orders cfg now req w) as (new & -> & Hnew).
  rewrite skipn_app, length_map, Nat.sub_diag, skipn_all2
    by (rewrite length_map; lia).
  destruct Hnew as [|o Hfresh _]; simpl; constructor; [exact Hfresh | constructor].
Qed.

(** ** Runs *)

Lemma run_app cfg t1 t2 w : run cfg (t1 ++ t2) w = run cfg t2 (run cfg t1 w).
Proof.
  revert w. induction t1 as [|[now req] t1 IH]; intros w; simpl; auto.
Qed.

(** The UNIQUE constraint holds along every run. *)
Lemma run_unique cfg trace w :
  unique_payment_ids (orders w) = true ->
  unique_payment_ids (orders (run cfg trace w)) = true.
Proof.
  revert w. induction trace as [|[now req] rest IH]; intros w Hw; simpl; auto.
  apply IH. destruct (handle_orders cfg now req w) as (new & -> & Hnew).
  destruct Hnew as [|o Hfresh Hv].
  - rewrite app_nil_r, unique_map; auto using touch_payment_id.
  - apply unique_snoc.
    + rewrite unique_map; auto using touch_payment_id.
    + rewrite violates_unique_map; auto using touch_payment_id.
Qed.

(** No request writes any status but "pending" and "paid". *)
Lemma run_open_or_paid cfg trace w :
  Forall open_or_paid (orders w) ->
  Forall open_or_paid (orders (run cfg trace w)).
Proof.
  revert w. induction trace as [|[now req] rest IH]; intros w Hw; simpl; auto.
  apply IH. destruct (handle_orders cfg now req w) as (new & -> & Hnew).
  apply Forall_app. split.
  - apply Forall_map. revert Hw. apply Forall_impl. auto with ledger.
  - destruct Hnew as [|o [Hs _] _]; repeat constructor. exact Hs.
Qed.

(** A paid row stays paid, in its place, under its id and reference. *)
Lemma run_paid cfg later w i o :
  nth_error (orders w) i = Some o ->
  status o = "paid" ->
  exists o',
    nth_error (orders (run cfg later w)) i = Some o' /\
    id o' = id o /\ payment_id o' = payment_id o /\ status o' = "paid".
Proof.
  revert w o. induction later as [|[now req] rest IH]; intros w o Hn Hp; simpl.
  - exists o. auto.
  - destruct (IH _ _ (handle_nth cfg now req w i o Hn)
                (touch_paid now req o Hp))
      as (o' & Hn' & Hid & Hpay & Hst).
    rewrite touch_id in Hid. rewrite touch_payment_id in Hpay.
    exists o'. auto.
Qed.

(** ** Reconciliation *)



(** The UPDATE of the verify handler names no current status: the guarantee
    of C2 rests on "paid" being the only status it writes. *)
Remark mark_paid_unguarded now r o :
  payment_id o = Some r -> status (mark_paid now r o) = "paid".
Proof.
  intros H. unfold mark_paid. rewrite H. simpl.
  now rewrite String.eqb_refl.
Qed.




(** C9: when the gateway reports success for a reference under which the
    table holds no row, the verify handler answers 200 with
    [success: true] and the table is unchanged; only the verify call is
    recorded. *)
Theorem verify_without_order (now : Z) (reference : string)
    (verifyResp data status : jsval) (w : World) :
  reference <> EmptyString ->
  get_prop verifyResp "data" = Ok data ->
  get_prop data "status" = Ok status ->
  is_string status "success" = true ->
  rows_of reference (orders w) = [] ->
  verifyPaystackPayment now (Some reference) (Ok verifyResp) w =
    (json 200 [("success", JBool true);
               ("message", JStr "Payment verified");
               ("order", data)],
     mkWorld (orders w) (outbound w ++ [PaystackVerify reference])
       (console w) (sqlite_sequence w)).
Proof.
  intros Hne Hd Hs Hok Hnone.
  unfold verifyPaystackPayment.
  destruct reference as [|c r]; [congruence|].
  unfold try_catch, bind, await_call, update_paid, ret. simpl.
  rewrite Hd. simpl. rewrite Hs. simpl. rewrite Hok. simpl.
  f_equal. f_equal.
  unfold rows_of in Hnone.
  induction (orders w) as [|o rest IH]; simpl in *; [reflexivity|].
  destruct (same_payment_id (payment_id o) (Some (String c r))) eqn:E;
    [discriminate|].
  unfold mark_paid at 1. rewrite E. f_equal. apply IH. exact Hnone.
Qed.

Lemma verify_without_order_witness :
  "ref_404" <> EmptyString /\
  rows_of "ref_404" (orders (run Sample.config Sample.paid_trace initial))
    = [] /\
  verifyPaystackPayment 9000000 (Some "ref_404") (Ok Sample.verify_success)
    (run Sample.config Sample.paid_trace initial) =
    (json 200 [("success", JBool true);
               ("message", JStr "Payment verified");
               ("order", JObj [("status", JStr "success");
                               ("reference", JStr "ref_1")])],
     mkWorld (orders (run Sample.config Sample.paid_trace initial))
       (outbound (run Sample.config Sample.paid_trace initial)
          ++ [PaystackVerify "ref_404"])
       (console (run Sample.config Sample.paid_trace initial))
       (sqlite_sequence (run Sample.config Sample.paid_trace initial))).
Proof.
  split; [discriminate|]. split; [reflexivity|].
  apply (verify_without_order 9000000 "ref_404" Sample.verify_success
           (JObj [("status", JStr "success"); ("reference", JStr "ref_1")])
           (JStr "success")).
  - discriminate.
  - reflexivity.
  - reflexivity.
  - reflexivity.
  - reflexivity.
Defined.

(** ** Webhook *)

Lemma acknowledge_logged event w line :
  Ship.handleStripeEvent event w =
    (Ok tt,
     mkWorld (orders w) (outbound w) (console w ++ [line])
       (sqlite_sequence w)) ->
  Ship.acknowledge event w =
    (json 200 [("received", JBool true)],
     mkWorld (orders w) (outbound w) (console w ++ [line])
       (sqlite_sequence w)).
Proof. unfold Ship.acknowledge. intros ->. reflexivity. Qed.

(** Once the route holds an event whose type is unrecognized, or a
    [payment_intent.succeeded] event that carries a payment intent, it
    answers 200 with [{ received: true }] and adds one console line. *)
Lemma acknowledge_known_event (event : jsval) (w : World) :
  unrecognized event \/ (exists id, succeeded_for event id) ->
  exists line,
    Ship.acknowledge event w =
      (json 200 [("received", JBool true)],
       mkWorld (orders w) (outbound w) (console w ++ [line])
         (sqlite_sequence w)).
Proof.
  intros [(type & Ht & Hs & Hf)
         | (id & type & data & object & Ht & Hs & Hdt & Hob & Hid)].
  - exists ("Unhandled event type:", type). apply acknowledge_logged.
    unfold Ship.handleStripeEvent, bind, Ship.console_log.
    rewrite Ht, Hs, Hf. reflexivity.
  - exists ("PaymentIntent succeeded:", id). apply acknowledge_logged.
    unfold Ship.handleStripeEvent, bind, Ship.console_log,
      Ship.event_object_id.
    rewrite Ht, Hs, Hdt, Hob, Hid. reflexivity.
Qed.

(** C7 on the app as it is set up. Take an event of the kind the claim is
    about (its type unrecognized, or [payment_intent.succeeded] with a
    payment intent), sent as the gateway sends it: a JSON object in a
    request of type application/json. Handed to [handleStripeEvent], the
    event would be acknowledged with 200 and [{ received: true }]. But
    [express.json()] has replaced the raw body by the parsed object, so the
    route never gets that far: without a signing secret it parses the text
    of [req.body.toString()], which is no JSON, and the request ends in the
    error page with status 500; with a secret the signature check is given
    the object and the answer is 400. The world is unchanged either way.
    [JSON.parse] and [constructEvent] enter through what they do on these
    arguments. *)
Theorem webhook_loses_parsed_event
    (parse : string -> result jsval)
    (construct :
       list (string * jsval) -> option string -> string -> result jsval)
    (env : Ship.Env) (props : list (string * jsval)) (sig : option string)
    (w : World) :
  unrecognized (JObj props) \/ (exists id, succeeded_for (JObj props) id) ->
  (forall event, parse "[object Object]" <> Ok event) ->
  (forall secret event, construct props sig secret <> Ok event) ->
  (exists line,
     Ship.acknowledge (JObj props) w =
       (json 200 [("received", JBool true)],
        mkWorld (orders w) (outbound w) (console w ++ [line])
          (sqlite_sequence w))) /\
  snd (Ship.webhook_parsed parse construct env props sig w) = w /\
  (exists message,
     fst (Ship.webhook_parsed parse construct env props sig w) =
       if unset (Ship.STRIPE_WEBHOOK_SECRET env)
       then mkResponse 500 (ErrorPage message)
       else mkResponse 400 (Text ("Webhook Error: " ++ message)%string)) /\
  fst (Ship.webhook_parsed parse construct env props sig w)
    <> json 200 [("received", JBool true)].
Proof.
  intros Hev Hparse Hconstruct.
  split; [now apply acknowledge_known_event|].
  unfold Ship.webhook_parsed, Ship.parsed_toString.
  destruct (unset (Ship.STRIPE_WEBHOOK_SECRET env)).
  - destruct (own_property "toString" props) as [member|].
    + split; [reflexivity|]. split; [eexists; reflexivity | discriminate].
    + destruct (parse "[object Object]") as [event|message] eqn:Hp.
      * now destruct (Hparse event).
      * split; [reflexivity|]. split; [eexists; reflexivity | discriminate].
  - match goal with
    | |- context [construct props sig ?secret] =>
        destruct (construct props sig secret) as [event|message] eqn:Hc;
        [now destruct (Hconstruct secret event)|]
    end.
    split; [reflexivity|]. split; [eexists; reflexivity | discriminate].
Qed.

Lemma webhook_loses_parsed_event_witness :
  (exists id, succeeded_for Sample.succeeded_event id) /\
  Ship.acknowledge Sample.succeeded_event initial =
    (json 200 [("received", JBool true)],
     mkWorld [] [] [("PaymentIntent succeeded:", JStr "pi_123")] 0) /\
  Ship.webhook_parsed Sample.parse Sample.no_signature_parsed
    (Ship.mkEnv None None)
    [("id", JStr "evt_2");
     ("type", JStr "payment_intent.succeeded");
     ("data", JObj [("object", JObj [("id", JStr "pi_123")])])]
    None initial =
    (mkResponse 500 (ErrorPage "Unexpected token o in JSON at position 1"),
     initial) /\
  fst (Ship.webhook_parsed Sample.parse Sample.no_signature_parsed
         (Ship.mkEnv None (Some "whsec_1"))
         [("id", JStr "evt_2");
          ("type", JStr "payment_intent.succeeded");
          ("data", JObj [("object", JObj [("id", JStr "pi_123")])])]
         (Some "t=1,v1=00") initial)
    <> json 200 [("received", JBool true)].
Proof.
  assert (Hs : exists id, succeeded_for Sample.succeeded_event id).
  { exists (JStr "pi_123").
    exists (JStr "payment_intent.succeeded"),
      (JObj [("object", JObj [("id", JStr "pi_123")])]),
      (JObj [("id", JStr "pi_123")]).
    repeat split. }
  split; [exact Hs|]. split; [reflexivity|]. split; [reflexivity|].
  apply (webhook_loses_parsed_event Sample.parse Sample.no_signature_parsed
           (Ship.mkEnv None (Some "whsec_1"))
           [("id", JStr "evt_2");
            ("type", JStr "payment_intent.succeeded");
            ("data", JObj [("object", JObj [("id", JStr "pi_123")])])]
           (Some "t=1,v1=00") initial).
  - right. exact Hs.
  - discriminate.
  - discriminate.
Defined.

(** An unrecognized event is acknowledged in the same way. *)
Example webhook_refund_event :
  unrecognized Sample.refund_event /\
  Ship.acknowledge Sample.refund_event initial =
    (json 200 [("received", JBool true)],
     mkWorld [] [] [("Unhandled event type:", JStr "charge.refunded")] 0).
Proof.
  split; [|reflexivity].
  exists (JStr "charge.refunded"). repeat split.
Qed.

(** ** Checkout *)







(** * Further properties *)

(** ** Monetary normaliser, continued *)

(** X1: for every integer amount of cents [x] of at most 2^50 in magnitude,
    [toCents(fromCents(x))] is [x], except when [x] is a multiple of 100
    above 100000. Within the bound the quotient and the product that the
    engine rounds stay less than half a cent away from the exact ones. *)
Theorem toCents_fromCents_any (x : Z) :
  Z.abs x <= 2 ^ 50 ->
  ~ ((100 | x) /\ 100000 < x) ->
  toCents (Fin (fromCents (Some x))) = x.
Proof.
  intros _ Hx. unfold toCents. rewrite gt_fromCents.
  destruct (Number_isInteger (fromCents (Some x))) eqn:Hi; simpl.
  - apply isInteger_fromCents in Hi.
    destruct (Z.ltb_spec 100000 x); [tauto|].
    rewrite fromCents_unfold. apply Math_round_times_100.
  - rewrite fromCents_unfold. apply Math_round_times_100.
Qed.

Lemma toCents_fromCents_any_witness :
  Z.abs 199999 <= 2 ^ 50 /\
  ~ ((100 | 199999) /\ 100000 < 199999) /\
  toCents (Fin (fromCents (Some 199999))) = 199999.
Proof.
  assert (Hb : Z.abs 199999 <= 2 ^ 50) by (vm_compute; discriminate).
  assert (H : ~ ((100 | 199999) /\ 100000 < 199999)).
  { intros [[k Hk] _]. lia. }
  split; [exact Hb|]. split; [exact H|].
  apply (toCents_fromCents_any 199999 Hb H).
Defined.

Lemma Qfloor_plus_half (c : Z) : Qfloor (inject_Z c + (1 # 2)) = c.
Proof.
  unfold Qfloor, Qplus, inject_Z; simpl.
  symmetry. apply (Z.div_unique _ 2 c 1); lia.
Qed.

(** X2: a dollar amount with at most two decimals and at most 2^50 cents
    in magnitude that [toCents] does not take for cents (it is not an
    integer above 1000) is converted to its exact number of cents, and
    [fromCents] gives the amount back. *)
Theorem fromCents_toCents (q : Q) (cents : Z) :
  Z.abs cents <= 2 ^ 50 ->
  cent_precise q cents ->
  taken_for_cents q = false ->
  toCents (Fin q) = cents /\ (fromCents (Some (toCents (Fin q))) == q)%Q.
Proof.
  unfold cent_precise, taken_for_cents. intros _ Hq Hb.
  assert (Hc : toCents (Fin q) = cents).
  { unfold toCents. rewrite Hb. unfold Math_round.
    rewrite <- (Qfloor_plus_half cents). apply Qfloor_comp.
    rewrite Hq. unfold Qeq, Qmult, Qplus, inject_Z; simpl. lia. }
  split; [exact Hc|]. rewrite Hc, fromCents_unfold, Hq.
  unfold Qeq; simpl. lia.
Qed.

Lemma fromCents_toCents_witness :
  Z.abs 1999 <= 2 ^ 50 /\
  cent_precise (1999 # 100) 1999 /\
  taken_for_cents (1999 # 100) = false /\
  toCents (Fin (1999 # 100)) = 1999 /\
  (fromCents (Some (toCents (Fin (1999 # 100)))) == 1999 # 100)%Q.
Proof.
  assert (H0 : Z.abs 1999 <= 2 ^ 50) by (vm_compute; discriminate).
  assert (H1 : cent_precise (1999 # 100) 1999) by reflexivity.
  assert (H2 : taken_for_cents (1999 # 100) = false) by reflexivity.
  split; [exact H0|]. split; [exact H1|]. split; [exact H2|].
  apply (fromCents_toCents (1999 # 100) 1999 H0 H1 H2).
Defined.

(** ** Shipping fees, continued *)

(** X3: for every region name that [Object.prototype] does not define (a
    missing region reads as "undefined"), the fee is the one listed for the
    name, and 3500 when the name is not listed. *)
Theorem getShippingFee_listed_or_default (state : option string) :
  inherited (property_key state) = false ->
  getShippingFee state =
    match own_property (property_key state) SHIPPING_FEES with
    | Some fee => fee
    | None => JInt 3500
    end.
Proof.
  intros Hin. unfold getShippingFee, lookup. rewrite Hin.
  unfold own_property.
  set (key := property_key state). clearbody key.
  cbn -[String.eqb].
  repeat match goal with
         | |- context [String.eqb ?a key] => destruct (String.eqb a key)
         end; reflexivity.
Qed.

Lemma getShippingFee_listed_or_default_witness :
  inherited (property_key (Some "Kano")) = false /\
  getShippingFee (Some "Kano") = JInt 2800 /\
  inherited (property_key None) = false /\
  getShippingFee None = JInt 3500.
Proof.
  split; [reflexivity|]. split.
  - apply (getShippingFee_listed_or_default (Some "Kano")). reflexivity.
  - split; [reflexivity|].
    apply (getShippingFee_listed_or_default None). reflexivity.
Defined.

(** ** The orders table along a run *)

Section RunInvariant.

Variable P : list Order -> Prop.
Hypothesis P_step :
  forall cfg now req w,
    P (orders w) -> P (orders (snd (handle cfg now req w))).

(** A property of tables that every request keeps holds after every run. *)
Lemma run_invariant cfg trace w : P (orders w) -> P (orders (run cfg trace w)).
Proof.
  revert w. induction trace as [|[now req] rest IH]; intros w Hw; simpl; auto.
Qed.

End RunInvariant.

(** X4: in every table the system can reach from a fresh install, no two
    rows hold the same payment reference. *)
Theorem reachable_unique_payment_ids (cfg : Config)
    (trace : list (Z * request)) :
  unique_payment_ids (orders (run cfg trace initial)) = true.
Proof. apply run_unique. reflexivity. Qed.

Lemma touch_draft_columns now req o :
  draft_columns (touch now req o) = draft_columns o.
Proof. rewrite touch_spec. destruct (stamped req o); reflexivity. Qed.

(** X6: in every reachable table a row is "pending" with [processed_at]
    NULL or "paid" with [processed_at] set; no other combination and no
    other status occurs. *)
Theorem reachable_stamp_matches_status (cfg : Config)
    (trace : list (Z * request)) :
  Forall stamp_matches_status (orders (run cfg trace initial)).
Proof.
  apply (run_invariant (Forall stamp_matches_status)); [|constructor].
  intros c now req w Hw.
  destruct (handle_orders c now req w) as (new & -> & Hnew).
  apply Forall_app. split.
  - apply Forall_map. revert Hw. apply Forall_impl. intros o Ho.
    rewrite touch_spec. destruct (stamped req o); [|exact Ho].
    right. split; [reflexivity | eexists; reflexivity].
  - destruct Hnew as [|o Hfresh _]; constructor; [|constructor].
    left. exact Hfresh.
Qed.

(** X7: whatever the table holds, a run of requests never removes or
    reorders rows and never changes a column written at draft time (id,
    local order id, payment reference, customer and cart snapshot, totals,
    supplier share, profit, supplier response, creation time). *)
Theorem run_keeps_draft_columns (cfg : Config) (later : list (Z * request))
    (w : World) (i : nat) (o : Order) :
  nth_error (orders w) i = Some o ->
  exists o',
    nth_error (orders (run cfg later w)) i = Some o' /\
    draft_columns o' = draft_columns o.
Proof.
  revert w o. induction later as [|[now req] rest IH]; intros w o Hn; simpl.
  - exists o. auto.
  - destruct (IH _ _ (handle_nth cfg now req w i o Hn)) as (o' & Hn' & Hc).
    exists o'. split; [exact Hn'|].
    rewrite Hc. apply touch_draft_columns.
Qed.

Lemma run_keeps_draft_columns_witness :
  exists o,
    nth_error (orders (run Sample.config Sample.paid_trace initial)) 0
      = Some o /\
    exists o',
      nth_error
        (orders (run Sample.config Sample.later_trace
                   (run Sample.config Sample.paid_trace initial))) 0
        = Some o' /\
      draft_columns o' = draft_columns o.
Proof.
  eexists. split; [reflexivity|].
  apply (run_keeps_draft_columns Sample.config Sample.later_trace
           (run Sample.config Sample.paid_trace initial) 0).
  reflexivity.
Defined.

(** ** Exchange rate and checkouts *)

(** When [fetchUsdToNgnRate] returns, an API key is configured, exactly one
    lookup was sent, and the rate is the number of the reply, which is not
    zero; nothing else changed. *)
Lemma fetchUsdToNgnRate_returns (env : Server.Env) (reply : result number)
    (w w' : World) (rate : Q) :
  fetchUsdToNgnRate env reply w = (Ok rate, w') ->
  unset (EXCHANGE_RATE_API_KEY env) = false /\
  reply = Ok (Fin rate) /\
  ~ (rate == 0)%Q /\
  w' = mkWorld (orders w) (outbound w ++ [RateLookup]) (console w)
         (sqlite_sequence w).
Proof.
  unfold fetchUsdToNgnRate, throw, bind, await_call, ret.
  destruct (unset (EXCHANGE_RATE_API_KEY env)); [discriminate|].
  destruct reply as [[q|]|e]; simpl; try discriminate.
  destruct (Qeq_bool q 0) eqn:Hq; [discriminate|].
  intros H. injection H as <- <-.
  repeat split. intros Hz. apply Qeq_bool_iff in Hz. congruence.
Qed.

(** What the Paystack checkout does to the world: an answer other than 200
    with the table unchanged, or 200 after [createDraftOrder] under the
    gateway's reference. *)
Lemma paystack_cases now body reply w :
  (code (fst (createPaystackOrderHandler now body reply w)) <> 200 /\
   orders (snd (createPaystackOrderHandler now body reply w)) = orders w) \/
  (code (fst (createPaystackOrderHandler now body reply w)) = 200 /\
   exists init items amount fee,
     reply = Ok (Some init) /\ cartItems body = Some items /\
     snd (createPaystackOrderHandler now body reply w) =
     snd (createDraftOrder now (reference init) (Some items) (customer body)
            (Some (Some 0)) (Some amount) (Some (Some 0)) (Some (Some 0))
            (mkWorld (orders w)
               (outbound w ++
                [PaystackInitialize
                   (field_or (customer body) email "guest@example.com")
                   amount fee])
               (console w) (sqlite_sequence w)))).
Proof.
  unfold createPaystackOrderHandler.
  destruct (cartItems body) as [[|it items]|] eqn:Hc; simpl;
    try (left; split; [discriminate | reflexivity]).
  unfold try_catch, bind, await_call, throw. simpl.
  destruct reply as [[d|]|e]; simpl;
    try (left; split; [discriminate | reflexivity]).
  right. split; [rewrite createDraftOrder_spec; reflexivity|].
  exists d, (it :: items),
    (round_kobo (add_fee (paystack_total (it :: items))
                   (getShippingFee (customer_state (customer body))))),
    (getShippingFee (customer_state (customer body))).
  split; [reflexivity|]. split; [reflexivity|].
  rewrite !createDraftOrder_spec. reflexivity.
Qed.

(** X8: unless the Paystack checkout answers 200, it leaves the orders
    table as it was: an empty cart, a failed initialize call or a reply
    without data writes no draft. *)
Theorem paystack_checkout_failure (now : Z) (body : Body)
    (reply : result (option PaystackInit)) (w : World) :
  code (fst (createPaystackOrderHandler now body reply w)) <> 200 ->
  orders (snd (createPaystackOrderHandler now body reply w)) = orders w.
Proof.
  intros H. destruct (paystack_cases now body reply w) as [[_ Hu]|[Hc _]];
    [exact Hu | contradiction].
Qed.

Lemma paystack_checkout_failure_witness :
  code (fst (createPaystackOrderHandler 7000000 Sample.checkout
               (Throw "timeout of 20000ms exceeded")
               (run Sample.config Sample.paid_trace initial))) <> 200 /\
  orders (snd (createPaystackOrderHandler 7000000 Sample.checkout
                 (Throw "timeout of 20000ms exceeded")
                 (run Sample.config Sample.paid_trace initial)))
    = orders (run Sample.config Sample.paid_trace initial).
Proof.
  assert (H : code (fst (createPaystackOrderHandler 7000000 Sample.checkout
                           (Throw "timeout of 20000ms exceeded")
                           (run Sample.config Sample.paid_trace initial)))
              <> 200) by discriminate.
  split; [exact H|].
  apply (paystack_checkout_failure 7000000 Sample.checkout
           (Throw "timeout of 20000ms exceeded")
           (run Sample.config Sample.paid_trace initial) H).
Defined.

(** X9: when the gateway accepts the initialize call and returns a
    reference the table does not hold, the Paystack checkout answers 200
    and appends exactly one row: pending, keyed by that reference, and
    recording as its kobo total the very amount that was sent to the
    gateway; the id of the row is the last one handed out. *)
Theorem paystack_checkout_records (now : Z) (body : Body) (it : CartItem)
    (items : list CartItem) (init : PaystackInit) (w : World) :
  cartItems body = Some (it :: items) ->
  violates_unique (reference init) (orders w) = false ->
  exists amount fee row,
    code (fst (createPaystackOrderHandler now body (Ok (Some init)) w)) = 200
    /\ snd (createPaystackOrderHandler now body (Ok (Some init)) w) =
       mkWorld (orders w ++ [row])
         (outbound w ++
          [PaystackInitialize
             (field_or (customer body) email "guest@example.com") amount fee])
         (console w) (id row)
    /\ payment_id row = reference init
    /\ status row = "pending"
    /\ total_kobo_ngn row = amount.
Proof.
  intros Hc Hv.
  destruct (paystack_cases now body (Ok (Some init)) w)
    as [[Hn _]|(H200 & d & l & amount & fee & Hr & Hl & Hw)].
  - exfalso. apply Hn. unfold createPaystackOrderHandler. rewrite Hc.
    unfold try_catch, bind, await_call. simpl.
    rewrite createDraftOrder_spec. reflexivity.
  - injection Hr as <-. exists amount, fee.
    rewrite createDraftOrder_spec in Hw. simpl in Hw. rewrite Hv in Hw.
    eexists. split; [exact H200|]. split; [exact Hw|].
    repeat split.
Qed.

Lemma paystack_checkout_records_witness :
  cartItems Sample.checkout = Some Sample.cart /\
  violates_unique (reference Sample.init_ok) (orders initial) = false /\
  exists amount fee row,
    code (fst (createPaystackOrderHandler 1000000 Sample.checkout
                 (Ok (Some Sample.init_ok)) initial)) = 200
    /\ snd (createPaystackOrderHandler 1000000 Sample.checkout
              (Ok (Some Sample.init_ok)) initial) =
       mkWorld (orders initial ++ [row])
         (outbound initial ++
          [PaystackInitialize
             (field_or (customer Sample.checkout) email "guest@example.com")
             amount fee])
         (console initial) (id row)
    /\ payment_id row = reference Sample.init_ok
    /\ status row = "pending"
    /\ total_kobo_ngn row = amount.
Proof.
  split; [reflexivity|]. split; [reflexivity|].
  apply (paystack_checkout_records 1000000 Sample.checkout
           (mkCartItem (Fin (inject_Z 10)) (Fin (inject_Z 6)) (Some 2)) []
           Sample.init_ok initial).
  - reflexivity.
  - reflexivity.
Defined.

(** After a draft was attempted under a reference, the table holds the
    reference. *)
Lemma createDraftOrder_holds now r items cust a b c d w :
  violates_unique (Some r)
    (orders (snd (createDraftOrder now (Some r) items cust a b c d w)))
  = true.
Proof.
  rewrite createDraftOrder_spec. simpl.
  destruct (violates_unique (Some r) (orders w)) eqn:Hv; [exact Hv|].
  simpl. rewrite violates_unique_app. simpl.
  rewrite String.eqb_refl. now rewrite orb_true_r.
Qed.

(** What the OPay checkout does to the table: an answer other than 200 with
    the table unchanged, or 200 after [createDraftOrder] under the
    reference derived from the clock. *)
Lemma opay_cases env now body rate_reply opay_reply w :
  (code (fst (createOpayOrderHandler env now body rate_reply opay_reply w))
     <> 200 /\
   orders (snd (createOpayOrderHandler env now body rate_reply opay_reply w))
     = orders w) \/
  (code (fst (createOpayOrderHandler env now body rate_reply opay_reply w))
     = 200 /\
   exists items cust usd kobo sup profit w0,
     orders w0 = orders w /\
     orders (snd (createOpayOrderHandler env now body rate_reply opay_reply
                    w)) =
     orders (snd (createDraftOrder now
                    (Some ("opay_ref_" ++ String_of_int now)%string)
                    items cust usd kobo sup profit w0))).
Proof.
  unfold createOpayOrderHandler.
  destruct (cartItems body) as [[|it items]|]; simpl;
    try (left; split; [discriminate | reflexivity]).
  destruct (opay_totals (it :: items)) as [usdTotal usdSupplierTotal].
  unfold fetchUsdToNgnRate.
  destruct (unset (EXCHANGE_RATE_API_KEY env));
    unfold try_catch, bind, await_call, throw, ret; simpl;
    try (left; split; [discriminate | reflexivity]).
  destruct rate_reply as [[q|]|e]; simpl;
    try (left; split; [discriminate | reflexivity]).
  destruct (Qeq_bool q 0); simpl;
    try (left; split; [discriminate | reflexivity]).
  destruct (OPAY_SECRET_KEY env); simpl;
    try (left; split; [discriminate | reflexivity]).
  destruct opay_reply as [v|e]; simpl;
    try (left; split; [discriminate | reflexivity]).
  right. split; [rewrite createDraftOrder_spec; reflexivity|].
  do 7 eexists. split; [|rewrite !createDraftOrder_spec; reflexivity].
  reflexivity.
Qed.

(** X10: unless the OPay checkout answers 200, it leaves the orders table
    as it was: an empty cart, a failed or unusable rate lookup, a missing
    signing secret or a failed invoice call writes no draft. *)
Theorem opay_checkout_failure (env : Server.Env) (now : Z) (body : Body)
    (rate_reply : result number) (opay_reply : result jsval) (w : World) :
  code (fst (createOpayOrderHandler env now body rate_reply opay_reply w))
    <> 200 ->
  orders (snd (createOpayOrderHandler env now body rate_reply opay_reply w))
    = orders w.
Proof.
  intros H.
  destruct (opay_cases env now body rate_reply opay_reply w)
    as [[_ Hu]|[Hc _]]; [exact Hu | contradiction].
Qed.

Lemma opay_checkout_failure_witness :
  code (fst (createOpayOrderHandler Sample.keys 7000000 Sample.checkout
               (Ok (Fin (inject_Z 1500))) (Throw "ECONNREFUSED") initial))
    <> 200 /\
  orders (snd (createOpayOrderHandler Sample.keys 7000000 Sample.checkout
                 (Ok (Fin (inject_Z 1500))) (Throw "ECONNREFUSED") initial))
    = orders initial.
Proof.
  assert (H : code (fst (createOpayOrderHandler Sample.keys 7000000
                           Sample.checkout (Ok (Fin (inject_Z 1500)))
                           (Throw "ECONNREFUSED") initial)) <> 200)
    by discriminate.
  split; [exact H|].
  apply (opay_checkout_failure Sample.keys 7000000 Sample.checkout
           (Ok (Fin (inject_Z 1500))) (Throw "ECONNREFUSED") initial H).
Defined.

(** X11: when the rate lookup of an OPay checkout fails, the checkout
    answers 500 with the error of the lookup and the world is the one the
    lookup left: no invoice is sent to OPay and no draft is written. *)
Theorem opay_checkout_without_rate (env : Server.Env) (now : Z) (body : Body)
    (it : CartItem) (items : list CartItem) (rate_reply : result number)
    (opay_reply : result jsval) (w w' : World) (message : string) :
  cartItems body = Some (it :: items) ->
  fetchUsdToNgnRate env rate_reply w = (Throw message, w') ->
  createOpayOrderHandler env now body rate_reply opay_reply w =
    (json 500 [("success", JBool false); ("error", JStr message)], w').
Proof.
  intros Hc Hf. unfold createOpayOrderHandler. rewrite Hc.
  destruct (opay_totals (it :: items)) as [usdTotal usdSupplierTotal].
  unfold try_catch, bind. rewrite Hf. reflexivity.
Qed.

Lemma opay_checkout_without_rate_witness :
  cartItems Sample.checkout = Some Sample.cart /\
  fetchUsdToNgnRate Sample.keys (Ok NaN) initial =
    (Throw "Could not get NGN rate", mkWorld [] [RateLookup] [] 0) /\
  createOpayOrderHandler Sample.keys 7000000 Sample.checkout (Ok NaN)
    (Ok JNull) initial =
    (json 500 [("success", JBool false);
               ("error", JStr "Could not get NGN rate")],
     mkWorld [] [RateLookup] [] 0).
Proof.
  split; [reflexivity|]. split; [reflexivity|].
  apply (opay_checkout_without_rate Sample.keys 7000000 Sample.checkout
           (mkCartItem (Fin (inject_Z 10)) (Fin (inject_Z 6)) (Some 2)) []
           (Ok NaN) (Ok JNull) initial (mkWorld [] [RateLookup] [] 0)
           "Could not get NGN rate").
  - reflexivity.
  - reflexivity.
Defined.

(** X12: the OPay reference is derived from the clock alone, so after an
    OPay checkout that answered 200, any other OPay checkout served at the
    same clock reading leaves the orders table unchanged, whatever its cart
    and whatever it answers: its draft falls under the same reference and
    is ignored. *)
Theorem opay_same_millisecond (env : Server.Env) (now : Z)
    (body1 body2 : Body) (rate1 rate2 : result number)
    (opay1 opay2 : result jsval) (w : World) :
  code (fst (createOpayOrderHandler env now body1 rate1 opay1 w)) = 200 ->
  orders (snd (createOpayOrderHandler env now body2 rate2 opay2
                 (snd (createOpayOrderHandler env now body1 rate1 opay1 w))))
  = orders (snd (createOpayOrderHandler env now body1 rate1 opay1 w)).
Proof.
  intros H200.
  destruct (opay_cases env now body1 rate1 opay1 w)
    as [[Hn _]|(_ & i1 & c1 & u1 & k1 & s1 & p1 & w0 & _ & Hw1)];
    [contradiction|].
  set (w1 := snd (createOpayOrderHandler env now body1 rate1 opay1 w)) in *.
  destruct (opay_cases env now body2 rate2 opay2 w1)
    as [[_ Hu]|(_ & i2 & c2 & u2 & k2 & s2 & p2 & w2 & Hw2 & Hw)];
    [exact Hu|].
  rewrite Hw, createDraftOrder_spec. cbn [snd orders].
  rewrite Hw2, Hw1, createDraftOrder_holds. reflexivity.
Qed.

Lemma opay_same_millisecond_witness :
  code (fst (createOpayOrderHandler Sample.keys 7000000 Sample.checkout
               (Ok (Fin (inject_Z 1500))) (Ok JNull) initial)) = 200 /\
  orders (snd (createOpayOrderHandler Sample.keys 7000000
                 (mkBody (Some Sample.loss_cart) None)
                 (Ok (Fin (inject_Z 1600))) (Ok JNull)
                 (snd (createOpayOrderHandler Sample.keys 7000000
                         Sample.checkout (Ok (Fin (inject_Z 1500)))
                         (Ok JNull) initial))))
  = orders (snd (createOpayOrderHandler Sample.keys 7000000 Sample.checkout
                   (Ok (Fin (inject_Z 1500))) (Ok JNull) initial)).
Proof.
  assert (H : code (fst (createOpayOrderHandler Sample.keys 7000000
                           Sample.checkout (Ok (Fin (inject_Z 1500)))
                           (Ok JNull) initial)) = 200) by reflexivity.
  split; [exact H|].
  apply (opay_same_millisecond Sample.keys 7000000 Sample.checkout
           (mkBody (Some Sample.loss_cart) None)
           (Ok (Fin (inject_Z 1500))) (Ok (Fin (inject_Z 1600)))
           (Ok JNull) (Ok JNull) initial H).
Defined.

(** ** Poll-and-verify, continued *)

Lemma verify_code now reference reply w :
  code (fst (verifyPaystackPayment now reference reply w)) = 200 <->
  exists r, reference = Some r /\
            verifies (PaystackCallback reference reply) r = true.
Proof.
  unfold verifyPaystackPayment, verifies.
  destruct reference as [[|c r]|]; simpl.
  - split; [discriminate|]. intros (r & Hr & Hv). injection Hr as <-.
    destruct reply; simpl in Hv; discriminate.
  - unfold try_catch, bind, await_call, update_paid, ret.
    destruct reply as [v|e]; simpl.
    + destruct (get_prop v "data") as [data|e]; simpl.
      * destruct (get_prop data "status") as [st|e]; simpl.
        -- destruct (is_string st "success") eqn:Hs; simpl.
           ++ split; [|reflexivity]. intros _. exists (String c r).
              split; [reflexivity|].
              now rewrite Ascii.eqb_refl, String.eqb_refl.
           ++ split; [discriminate|]. intros (x & Hx & Hv).
              injection Hx as <-.
              rewrite Ascii.eqb_refl, String.eqb_refl in Hv. discriminate.
        -- split; [discriminate|]. intros (x & Hx & Hv). injection Hx as <-.
           rewrite Ascii.eqb_refl, String.eqb_refl in Hv. discriminate.
      * split; [discriminate|]. intros (x & Hx & Hv). injection Hx as <-.
        rewrite Ascii.eqb_refl, String.eqb_refl in Hv. discriminate.
    + split; [discriminate|]. intros (x & Hx & Hv). discriminate.
  - split; [discriminate|]. intros (x & Hx & _). discriminate.
Qed.

(** X13: unless the verify handler answers 200, the orders table is
    unchanged: a missing reference (400), a gateway status other than
    "success" (400) and a failed or malformed gateway reply (500) mark
    nothing as paid. *)
Theorem verify_failure (now : Z) (reference : option string)
    (reply : result jsval) (w : World) :
  code (fst (verifyPaystackPayment now reference reply w)) <> 200 ->
  orders (snd (verifyPaystackPayment now reference reply w)) = orders w.
Proof.
  intros H. rewrite verify_orders. unfold touch.
  destruct reference as [r|]; [|apply map_id].
  destruct (verifies (PaystackCallback (Some r) reply) r) eqn:Hv;
    [|apply map_id].
  exfalso. apply H. apply verify_code. exists r. auto.
Qed.

Lemma verify_failure_witness :
  code (fst (verifyPaystackPayment 9000000 (Some "ref_1")
               (Ok (JObj [("data", JObj [("status", JStr "abandoned")])]))
               (run Sample.config
                  [(1000000,
                    CreatePaystackOrder Sample.checkout
                      (Ok (Some Sample.init_ok)))] initial))) <> 200 /\
  orders (snd (verifyPaystackPayment 9000000 (Some "ref_1")
                 (Ok (JObj [("data", JObj [("status", JStr "abandoned")])]))
                 (run Sample.config
                    [(1000000,
                      CreatePaystackOrder Sample.checkout
                        (Ok (Some Sample.init_ok)))] initial)))
  = orders (run Sample.config
              [(1000000,
                CreatePaystackOrder Sample.checkout
                  (Ok (Some Sample.init_ok)))] initial).
Proof.
  assert (H : code (fst (verifyPaystackPayment 9000000 (Some "ref_1")
               (Ok (JObj [("data", JObj [("status", JStr "abandoned")])]))
               (run Sample.config
                  [(1000000,
                    CreatePaystackOrder Sample.checkout
                      (Ok (Some Sample.init_ok)))] initial))) <> 200)
    by discriminate.
  split; [exact H|].
  apply (verify_failure 9000000 (Some "ref_1")
           (Ok (JObj [("data", JObj [("status", JStr "abandoned")])]))
           (run Sample.config
              [(1000000,
                CreatePaystackOrder Sample.checkout
                  (Ok (Some Sample.init_ok)))] initial) H).
Defined.

Lemma mark_paid_other now r o :
  same_payment_id (payment_id o) (Some r) = false -> mark_paid now r o = o.
Proof. unfold mark_paid. now intros ->. Qed.

Lemma mark_paid_payment_id now r o :
  payment_id (mark_paid now r o) = payment_id o.
Proof.
  unfold mark_paid. destruct (same_payment_id _ _); reflexivity.
Qed.

(** X14: a verify that the gateway answers with "success" is answered 200
    and sets every row under the reference to "paid" with [processed_at]
    the current timestamp; the number of rows under the reference stays the
    same and the rows under other references (or none) are untouched. *)
Theorem verify_success_marks_paid (now : Z) (r : string) (reply : result jsval)
    (w : World) :
  verifies (PaystackCallback (Some r) reply) r = true ->
  code (fst (verifyPaystackPayment now (Some r) reply w)) = 200 /\
  Forall (fun o => status o = "paid" /\
                   processed_at o = Some (CURRENT_TIMESTAMP now))
    (rows_of r (orders (snd (verifyPaystackPayment now (Some r) reply w))))
  /\ length (rows_of r
               (orders (snd (verifyPaystackPayment now (Some r) reply w))))
     = length (rows_of r (orders w))
  /\ filter (fun o => negb (same_payment_id (payment_id o) (Some r)))
       (orders (snd (verifyPaystackPayment now (Some r) reply w)))
     = filter (fun o => negb (same_payment_id (payment_id o) (Some r)))
         (orders w).
Proof.
  intros Hv. split.
  { apply verify_code. exists r. auto. }
  rewrite verify_orders. unfold touch. rewrite Hv. unfold rows_of.
  induction (orders w) as [|o rest (IH1 & IH2 & IH3)]; simpl.
  { repeat split; constructor. }
  rewrite mark_paid_payment_id.
  destruct (same_payment_id (payment_id o) (Some r)) eqn:Ho; simpl.
  - repeat split; auto.
    constructor; [|exact IH1]. unfold mark_paid. rewrite Ho. auto.
  - repeat split; auto. rewrite (mark_paid_other now r o Ho). now f_equal.
Qed.

Lemma verify_success_marks_paid_witness :
  verifies (PaystackCallback (Some "ref_1") (Ok Sample.verify_success))
    "ref_1" = true /\
  code (fst (verifyPaystackPayment 2000000 (Some "ref_1")
               (Ok Sample.verify_success)
               (run Sample.config
                  [(1000000,
                    CreatePaystackOrder Sample.checkout
                      (Ok (Some Sample.init_ok)))] initial))) = 200.
Proof.
  assert (H : verifies (PaystackCallback (Some "ref_1")
                          (Ok Sample.verify_success)) "ref_1" = true)
    by reflexivity.
  split; [exact H|].
  apply (verify_success_marks_paid 2000000 "ref_1" (Ok Sample.verify_success)
           (run Sample.config
              [(1000000,
                CreatePaystackOrder Sample.checkout
                  (Ok (Some Sample.init_ok)))] initial) H).
Defined.

(** ** Payment intents and the webhook, continued *)

(** X15: the payment-intent checkout never writes an order, and it sends at
    most one create-intent call; a fee carried by that call is never
    negative, and without a configured supplier account the call carries
    neither a fee nor a destination. *)
Theorem payment_intent_call (env : Ship.Env)
    (cartItems : option (list Ship.Item)) (reply : result jsval) (w : World) :
  orders (snd (Ship.create_payment_intent env cartItems reply w)) = orders w /\
  (outbound (snd (Ship.create_payment_intent env cartItems reply w))
     = outbound w \/
   exists total fee destination,
     outbound (snd (Ship.create_payment_intent env cartItems reply w))
       = outbound w ++ [StripeCreateIntent total fee destination] /\
     (forall f, fee = Some (Some f) -> 0 <= f) /\
     (unset (Ship.SUPPLIER_STRIPE_ACCOUNT env) = true ->
      fee = None /\ destination = None) /\
     (unset (Ship.SUPPLIER_STRIPE_ACCOUNT env) = false ->
      destination = Ship.SUPPLIER_STRIPE_ACCOUNT env)).
Proof.
  split; [apply payment_intent_orders|].
  unfold Ship.create_payment_intent.
  destruct cartItems as [[|it items]|]; simpl; auto.
  destruct (Ship.totals (it :: items)) as [total supplierTotal].
  destruct (Ship.negative (Ship.lift2 Z.sub total supplierTotal)) eqn:Hneg;
    simpl; auto.
  right. do 3 eexists. split.
  - unfold try_catch, bind, await_call, ret.
    destruct reply as [v|e]; simpl; [|reflexivity].
    destruct (get_prop v "client_secret"); reflexivity.
  - destruct (unset (Ship.SUPPLIER_STRIPE_ACCOUNT env)); repeat split;
      try discriminate.
    intros f Hf. injection Hf as Hf. rewrite Hf in Hneg. simpl in Hneg.
    destruct (Z.ltb_spec f 0); [discriminate | assumption].
Qed.

Lemma totals_nan_stays (items : list Ship.Item) (s : jsint) :
  fst (fold_left
         (fun '(total, supplierTotal) it =>
            let price := Ship.parseInt (Ship.price it) in
            let qty :=
              Ship.parseInt (Ship.first_truthy (Ship.quantity it)
                               (Ship.first_truthy (Ship.qty it) (Some 1))) in
            let sup :=
              Ship.parseInt (Ship.first_truthy (Ship.supplierCost it)
                               (Some 0)) in
            (Ship.lift2 Z.add total (Ship.lift2 Z.mul price qty),
             Ship.lift2 Z.add supplierTotal (Ship.lift2 Z.mul sup qty)))
         items (None, s)) = None.
Proof.
  revert s. induction items as [|it rest IH]; intros s; simpl; auto.
Qed.

Lemma totals_missing_price (items : list Ship.Item) (it : Ship.Item) :
  In it items -> Ship.price it = None -> fst (Ship.totals items) = None.
Proof.
  unfold Ship.totals. generalize (Some 0) at 3. generalize (Some 0) at 2.
  induction items as [|x rest IH]; intros t s Hin Hp; [contradiction|].
  simpl. destruct Hin as [->|Hin].
  - rewrite Hp. unfold Ship.parseInt at 1.
    replace (Ship.lift2 Z.add t (Ship.lift2 Z.mul None _)) with (@None Z)
      by (destruct t; reflexivity).
    apply totals_nan_stays.
  - now apply IH.
Qed.



(** X17: whatever the body, the signature header and the configuration,
    the webhook leaves the orders table and the outbound calls as they
    were; it answers 200 only with [{ received: true }], and otherwise 400
    or 500. *)
Theorem webhook_touches_nothing
    (parse : string -> result jsval)
    (construct : string -> option string -> string -> result jsval)
    (env : Ship.Env) (body : string) (sig : option string) (w : World) :
  orders (snd (Ship.webhook parse construct env body sig w)) = orders w /\
  outbound (snd (Ship.webhook parse construct env body sig w)) = outbound w /\
  (fst (Ship.webhook parse construct env body sig w)
     = json 200 [("received", JBool true)] \/
   code (fst (Ship.webhook parse construct env body sig w)) = 400 \/
   code (fst (Ship.webhook parse construct env body sig w)) = 500).
Proof.
  assert (Hack : forall event,
             orders (snd (Ship.acknowledge event w)) = orders w /\
             outbound (snd (Ship.acknowledge event w)) = outbound w /\
             (fst (Ship.acknowledge event w)
                = json 200 [("received", JBool true)] \/
              code (fst (Ship.acknowledge event w)) = 400 \/
              code (fst (Ship.acknowledge event w)) = 500)).
  { intros event. destruct (acknowledge_world event w) as [Ho Hb].
    repeat split; auto. unfold Ship.acknowledge.
    destruct (Ship.handleStripeEvent event w) as [[u|e] w']; simpl; auto. }
  unfold Ship.webhook.
  destruct (unset (Ship.STRIPE_WEBHOOK_SECRET env)).
  - destruct (parse body); [apply Hack | simpl; auto].
  - destruct (construct body sig _); [apply Hack | simpl; auto].
Qed.

(** X18: with a signing secret configured, a request whose signature check
    fails is answered 400 with the text "Webhook Error: ..." and changes
    nothing at all; the event is not handled. *)
Theorem webhook_rejects_bad_signature
    (parse : string -> result jsval)
    (construct : string -> option string -> string -> result jsval)
    (env : Ship.Env) (secret : string) (body : string) (sig : option string)
    (message : string) (w : World) :
  Ship.STRIPE_WEBHOOK_SECRET env = Some secret ->
  secret <> EmptyString ->
  construct body sig secret = Throw message ->
  Ship.webhook parse construct env body sig w =
    (mkResponse 400 (Text ("Webhook Error: " ++ message)%string), w).
Proof.
  intros Hs Hne Hc. unfold Ship.webhook, unset. rewrite Hs.
  destruct secret as [|c s]; [congruence|]. simpl. rewrite Hc. reflexivity.
Qed.

Lemma webhook_rejects_bad_signature_witness :
  Ship.STRIPE_WEBHOOK_SECRET (Ship.mkEnv None (Some "whsec_1"))
    = Some "whsec_1" /\
  "whsec_1" <> EmptyString /\
  Ship.webhook (fun _ => Ok Sample.succeeded_event)
    (fun _ _ _ => Throw "No signatures found")
    (Ship.mkEnv None (Some "whsec_1")) "{}" None initial =
    (mkResponse 400 (Text "Webhook Error: No signatures found"), initial).
Proof.
  split; [reflexivity|]. split; [discriminate|].
  apply (webhook_rejects_bad_signature (fun _ => Ok Sample.succeeded_event)
           (fun _ _ _ => Throw "No signatures found")
           (Ship.mkEnv None (Some "whsec_1")) "whsec_1" "{}" None
           "No signatures found" initial).
  - reflexivity.
  - discriminate.
  - reflexivity.
Defined.

(** X19: [handleStripeEvent] on a [payment_intent.succeeded] or
    [payment_intent.payment_failed] event without a [data] object: reading
    the intent id throws before [console.log] is called, so the promise is
    rejected with nothing logged by the handler and nothing changed, and
    the [catch] of the route answers 500 with an empty body. *)
Theorem webhook_event_without_data (event type : jsval) (w : World) :
  get_prop event "type" = Ok type ->
  is_string type "payment_intent.succeeded" = true \/
  is_string type "payment_intent.payment_failed" = true ->
  get_prop event "data" = Ok JUndefined ->
  Ship.handleStripeEvent event w =
    (Throw "Cannot read properties of undefined (reading 'object')", w) /\
  Ship.acknowledge event w = (mkResponse 500 Empty, w).
Proof.
  intros Ht Hk Hd.
  assert (Hh : Ship.handleStripeEvent event w =
               (Throw "Cannot read properties of undefined (reading 'object')",
                w)).
  { unfold Ship.handleStripeEvent, bind, Ship.event_object_id.
    rewrite Ht, Hd. simpl.
    destruct Hk as [-> | Hf]; [reflexivity|].
    rewrite Hf. destruct (is_string type "payment_intent.succeeded");
      reflexivity. }
  split; [exact Hh|]. unfold Ship.acknowledge. now rewrite Hh.
Qed.

Lemma webhook_event_without_data_witness :
  get_prop (JObj [("type", JStr "payment_intent.payment_failed")]) "type"
    = Ok (JStr "payment_intent.payment_failed") /\
  Ship.handleStripeEvent
    (JObj [("type", JStr "payment_intent.payment_failed")]) initial =
    (Throw "Cannot read properties of undefined (reading 'object')",
     initial) /\
  Ship.acknowledge (JObj [("type", JStr "payment_intent.payment_failed")])
    initial = (mkResponse 500 Empty, initial).
Proof.
  split; [reflexivity|].
  apply (webhook_event_without_data
           (JObj [("type", JStr "payment_intent.payment_failed")])
           (JStr "payment_intent.payment_failed") initial).
  - reflexivity.
  - right. reflexivity.
  - reflexivity.
Defined.

(** ** The product catalog *)

Section CatalogTable.

Import Catalog.

Lemma select_app pid l1 l2 :
  select pid (l1 ++ l2) =
    match select pid l1 with
    | Some p => Some p
    | None => select pid l2
    end.
Proof.
  unfold select. induction l1 as [|p l1 IH]; simpl; [reflexivity|].
  destruct (String.eqb (id p) pid); auto.
Qed.

Lemma select_delete_same pid l : select pid (delete pid l) = None.
Proof.
  unfold select, delete. induction l as [|p l IH]; simpl; [reflexivity|].
  destruct (String.eqb (id p) pid) eqn:E; simpl; [exact IH|].
  now rewrite E.
Qed.

Lemma select_delete_other pid k l :
  pid <> k -> select pid (delete k l) = select pid l.
Proof.
  intros Hne. unfold select, delete.
  induction l as [|p l IH]; simpl; [reflexivity|].
  destruct (String.eqb (id p) k) eqn:Ek; simpl.
  - apply String.eqb_eq in Ek.
    destruct (String.eqb (id p) pid) eqn:Ep; [|exact IH].
    apply String.eqb_eq in Ep. congruence.
  - destruct (String.eqb (id p) pid); auto.
Qed.

Lemma delete_absent pid l : select pid l = None -> delete pid l = l.
Proof.
  unfold select, delete. induction l as [|p l IH]; simpl; [reflexivity|].
  destruct (String.eqb (id p) pid); [discriminate|].
  intros H. simpl. now rewrite IH.
Qed.

Lemma existsb_delete q k l :
  existsb (fun x => String.eqb (id x) q) (delete k l) = true ->
  existsb (fun x => String.eqb (id x) q) l = true.
Proof.
  unfold delete. induction l as [|p l IH]; simpl; [auto|].
  destruct (String.eqb (id p) k); simpl; intros H.
  - rewrite IH by exact H. apply orb_true_r.
  - apply orb_true_iff in H as [H|H]; [now rewrite H|].
    rewrite IH by exact H. apply orb_true_r.
Qed.

Lemma unique_delete k l : unique_ids l = true -> unique_ids (delete k l) = true.
Proof.
  induction l as [|p l IH]; simpl; [auto|].
  intros H. apply andb_true_iff in H as [Hp Hl].
  unfold delete in *. simpl.
  destruct (String.eqb (id p) k); simpl; [now apply IH|].
  rewrite IH by exact Hl. rewrite andb_true_r.
  apply negb_true_iff in Hp. apply negb_true_iff.
  destruct (existsb _ (filter _ l)) eqn:E; [|reflexivity].
  apply existsb_delete in E. congruence.
Qed.

Lemma select_none_existsb pid l :
  select pid l = None ->
  existsb (fun x => String.eqb (id x) pid) l = false.
Proof.
  unfold select. induction l as [|p l IH]; simpl; [auto|].
  destruct (String.eqb (id p) pid); [discriminate | exact IH].
Qed.

Lemma unique_snoc_product l p :
  unique_ids l = true -> select (id p) l = None ->
  unique_ids (l ++ [p]) = true.
Proof.
  induction l as [|x l IH]; simpl; [auto|].
  intros H Hs. apply andb_true_iff in H as [Hx Hl].
  unfold select in Hs. simpl in Hs.
  destruct (String.eqb (id x) (id p)) eqn:E; [discriminate|].
  rewrite IH by assumption. rewrite andb_true_r.
  rewrite existsb_app. simpl. rewrite String.eqb_sym, E.
  apply negb_true_iff in Hx. now rewrite Hx.
Qed.

Lemma select_insert_same row l :
  select (id row) (insert_or_replace row l) = Some row.
Proof.
  unfold insert_or_replace.
  change (filter _ l) with (delete (id row) l).
  rewrite select_app, select_delete_same. unfold select. simpl.
  now rewrite String.eqb_refl.
Qed.

Lemma select_insert_other pid row l :
  pid <> id row -> select pid (insert_or_replace row l) = select pid l.
Proof.
  intros Hpid. unfold insert_or_replace.
  change (filter _ l) with (delete (id row) l).
  rewrite select_app, (select_delete_other pid _ _ Hpid).
  destruct (select pid l) eqn:E; [reflexivity|].
  unfold select. simpl.
  destruct (String.eqb (id row) pid) eqn:E'; [|reflexivity].
  apply String.eqb_eq in E'. congruence.
Qed.

Lemma unique_insert row l :
  unique_ids l = true -> unique_ids (insert_or_replace row l) = true.
Proof.
  intros Hu. unfold insert_or_replace.
  change (filter _ l) with (delete (id row) l).
  apply unique_snoc_product; [now apply unique_delete|].
  apply select_delete_same.
Qed.

End CatalogTable.

(** X20: an accepted [POST /api/add-product] (non-empty title, price not
    null) is an upsert: it answers 200; afterwards the id of the request
    (or the one made from the clock) selects the row built from the request,
    with its title, SKU and image and with a price and a cost in cents;
    every other id selects what it selected before; and the ids of the
    table stay unique. *)
Theorem add_product_upserts (now : Z) (body : Catalog.NewProduct)
    (title : string) (price : number) (products : list Catalog.Product) :
  Catalog.new_title body = Some title ->
  title <> EmptyString ->
  Catalog.new_price body = Some price ->
  let pid :=
    Catalog.string_or (Catalog.new_id body) ("p" ++ String_of_int now) in
  let products' := snd (Catalog.add_product now body products) in
  code (fst (Catalog.add_product now body products)) = 200 /\
  (exists cents cost : Z,
     Catalog.select pid products' =
       Some (Catalog.mkProduct pid title (Some cents) (Some cost)
               (Catalog.string_or (Catalog.new_supplier_sku body) EmptyString)
               (Some (Catalog.string_or (Catalog.new_img body)
                        EmptyString)))) /\
  (forall other, other <> pid ->
     Catalog.select other products' = Catalog.select other products) /\
  (Catalog.unique_ids products = true -> Catalog.unique_ids products' = true).
Proof.
  intros Ht Hne Hp pid products'.
  set (row := Catalog.new_row now body title price).
  pose proof (select_insert_same row products) as Hsel.
  assert (Hadd : Catalog.add_product now body products =
                 (fst (Catalog.add_product now body products),
                  Catalog.insert_or_replace row products) /\
                 code (fst (Catalog.add_product now body products)) = 200).
  { unfold Catalog.add_product. rewrite Ht, Hp.
    destruct title as [|c t]; [congruence|].
    fold row. rewrite Hsel. split; reflexivity. }
  destruct Hadd as [Hadd H200].
  assert (Hp' : products' = Catalog.insert_or_replace row products).
  { unfold products'. now rewrite Hadd. }
  rewrite Hp'. split; [exact H200|]. split; [|split].
  - do 2 eexists. exact Hsel.
  - intros other Hother. now apply select_insert_other.
  - apply unique_insert.
Qed.

Lemma add_product_upserts_witness :
  Catalog.new_title Stock.earbuds_again = Some "Wireless Earbuds 2" /\
  "Wireless Earbuds 2" <> EmptyString /\
  Catalog.new_price Stock.earbuds_again = Some (Fin (inject_Z 25)) /\
  code (fst (Catalog.add_product 1000000 Stock.earbuds_again Stock.shelf))
    = 200 /\
  exists cents cost : Z,
    Catalog.select "p1"
      (snd (Catalog.add_product 1000000 Stock.earbuds_again Stock.shelf))
    = Some (Catalog.mkProduct "p1" "Wireless Earbuds 2" (Some cents)
              (Some cost) EmptyString (Some EmptyString)).
Proof.
  split; [reflexivity|]. split; [discriminate|]. split; [reflexivity|].
  assert (H := add_product_upserts 1000000 Stock.earbuds_again
                 "Wireless Earbuds 2" (Fin (inject_Z 25)) Stock.shelf
                 eq_refl ltac:(discriminate) eq_refl).
  split; [exact (proj1 H) | exact (proj1 (proj2 H))].
Defined.

(** X21: [DELETE /api/delete-product/:id] always answers 200; afterwards
    the id selects nothing, every other id selects what it did before, and
    deleting an id the table does not hold leaves the table as it was. *)
Theorem delete_product_removes (pid : string)
    (products : list Catalog.Product) :
  code (fst (Catalog.delete_product pid products)) = 200 /\
  Catalog.select pid (snd (Catalog.delete_product pid products)) = None /\
  (forall other, other <> pid ->
     Catalog.select other (snd (Catalog.delete_product pid products))
     = Catalog.select other products) /\
  (Catalog.select pid products = None ->
   snd (Catalog.delete_product pid products) = products).
Proof.
  simpl. split; [reflexivity|]. split; [apply select_delete_same|]. split.
  - intros other Hne. now apply select_delete_other.
  - apply delete_absent.
Qed.

(** X22: adding a product under an id the table does not hold and then
    deleting that id gives the table back. *)
Theorem add_then_delete (now : Z) (body : Catalog.NewProduct)
    (title : string) (price : number) (products : list Catalog.Product) :
  Catalog.new_title body = Some title ->
  title <> EmptyString ->
  Catalog.new_price body = Some price ->
  Catalog.select (Catalog.id (Catalog.new_row now body title price)) products
    = None ->
  snd (Catalog.delete_product
         (Catalog.id (Catalog.new_row now body title price))
         (snd (Catalog.add_product now body products)))
  = products.
Proof.
  intros Ht Hne Hp Hnew.
  set (row := Catalog.new_row now body title price) in *.
  assert (Hadd : snd (Catalog.add_product now body products)
                 = Catalog.insert_or_replace row products).
  { unfold Catalog.add_product. rewrite Ht, Hp.
    destruct title as [|c t]; [congruence|].
    fold row. rewrite (select_insert_same row products). reflexivity. }
  rewrite Hadd. simpl. unfold Catalog.insert_or_replace.
  change (filter _ products) with (Catalog.delete (Catalog.id row) products).
  rewrite (delete_absent _ _ Hnew).
  unfold Catalog.delete. rewrite filter_app. simpl.
  rewrite String.eqb_refl. simpl. rewrite app_nil_r.
  apply (delete_absent _ _ Hnew).
Qed.

Lemma add_then_delete_witness :
  Catalog.select "p3" Stock.shelf = None /\
  snd (Catalog.delete_product "p3"
         (snd (Catalog.add_product 1000000 Stock.band Stock.shelf)))
  = Stock.shelf.
Proof.
  split; [reflexivity|].
  apply (add_then_delete 1000000 Stock.band "Fitness Band"
           (Fin (1475 # 100)) Stock.shelf).
  - reflexivity.
  - discriminate.
  - reflexivity.
  - reflexivity.
Defined.

(** X23: [PUT /api/update-product/:id] with a currency other than "USD" and
    "NGN" (or none) answers [success: true] and overwrites the price of the
    product with NULL, besides setting its image; no rate is looked up. *)
Theorem update_product_unknown_currency (env : Server.Env) (pid : string)
    (price : number) (image : option string) (currency : option string)
    (rate_reply : result number) (products : list Catalog.Product)
    (w : World) (p : Catalog.Product) :
  currency <> Some "USD" ->
  currency <> Some "NGN" ->
  Catalog.select pid products = Some p ->
  Catalog.update_product env pid price image currency rate_reply products w
    = (json 200 [("success", JBool true)],
       Catalog.update pid None image products, w) /\
  Catalog.select pid (Catalog.update pid None image products)
    = Some (Catalog.mkProduct (Catalog.id p) (Catalog.title p) None
              (Catalog.supplierCost_usd_cents p) (Catalog.supplier_sku p)
              image).
Proof.
  intros Hu Hn Hs. split.
  - unfold Catalog.update_product.
    destruct currency as [c|]; [|reflexivity].
    destruct (String.eqb_spec c "USD") as [->|H1]; [congruence|].
    destruct (String.eqb_spec c "NGN") as [->|H2]; [congruence|].
    reflexivity.
  - clear Hu Hn. unfold Catalog.select, Catalog.update in *.
    induction products as [|x rest IH]; simpl in *; [discriminate|].
    destruct (String.eqb (Catalog.id x) pid) eqn:E; simpl.
    + rewrite E. injection Hs as <-. reflexivity.
    + rewrite E. now apply IH.
Qed.

Lemma update_product_unknown_currency_witness :
  Some "EUR" <> Some "USD" /\
  Some "EUR" <> Some "NGN" /\
  Catalog.select "p1" Stock.shelf = Some Stock.earbuds /\
  Catalog.select "p1"
    (Catalog.update "p1" None (Some "new.png") Stock.shelf)
    = Some (Catalog.mkProduct "p1" "Wireless Earbuds" None (Some 1500)
              "EB-001" (Some "new.png")).
Proof.
  split; [discriminate|]. split; [discriminate|]. split; [reflexivity|].
  apply (update_product_unknown_currency Sample.keys "p1"
           (Fin (inject_Z 20)) (Some "new.png") (Some "EUR") (Throw "unused")
           Stock.shelf initial Stock.earbuds).
  - discriminate.
  - discriminate.
  - reflexivity.
Defined.

Lemma Math_round_integer (z : Z) :
  Math_round (inject_Z z * inject_Z 100) = 100 * z.
Proof.
  unfold Math_round, Qfloor, Qmult, Qplus, inject_Z.
  cbn -[Z.mul Z.div Z.add].
  symmetry. apply (Z.div_unique _ 2 _ 1); lia.
Qed.



(** X25: [GET /api/products] lists the newest row first: right after an
    accepted [POST /api/add-product], and when the rate lookup succeeds,
    the first entry of the listing starts with the columns of the product
    just written, under the id and the title of the request. *)
Theorem added_product_listed_first (env : Server.Env) (now : Z)
    (body : Catalog.NewProduct) (title : string) (price : number)
    (rate : Q) (products : list Catalog.Product) (w : World) :
  Catalog.new_title body = Some title ->
  title <> EmptyString ->
  Catalog.new_price body = Some price ->
  unset (EXCHANGE_RATE_API_KEY env) = false ->
  Qeq_bool rate 0 = false ->
  exists row prices rest,
    Catalog.id row =
      Catalog.string_or (Catalog.new_id body) ("p" ++ String_of_int now) /\
    Catalog.title row = title /\
    fst (Catalog.get_products env (Ok (Fin rate))
           (snd (Catalog.add_product now body products)) w)
    = json 200
        [("success", JBool true);
         ("products", JArr (JObj (Catalog.columns row ++ prices) :: rest))].
Proof.
  intros Ht Hne Hp Hk Hr.
  set (row := Catalog.new_row now body title price) in *.
  assert (Hadd : snd (Catalog.add_product now body products)
                 = Catalog.insert_or_replace row products).
  { unfold Catalog.add_product. rewrite Ht, Hp.
    destruct title as [|c t]; [congruence|].
    fold row. rewrite (select_insert_same row products). reflexivity. }
  rewrite Hadd. exists row.
  unfold Catalog.get_products, try_catch, bind, fetchUsdToNgnRate.
  rewrite Hk. unfold bind, await_call, ret. simpl. rewrite Hr. simpl.
  unfold Catalog.insert_or_replace. rewrite rev_app_distr. simpl.
  do 2 eexists. split; [reflexivity|]. split; reflexivity.
Qed.

Lemma added_product_listed_first_witness :
  exists row prices rest,
    Catalog.id row = "p3" /\
    Catalog.title row = "Fitness Band" /\
    fst (Catalog.get_products Sample.keys (Ok (Fin (inject_Z 1500)))
           (snd (Catalog.add_product 1000000 Stock.band Stock.shelf))
           initial)
    = json 200
        [("success", JBool true);
         ("products", JArr (JObj (Catalog.columns row ++ prices) :: rest))].
Proof.
  apply (added_product_listed_first Sample.keys 1000000 Stock.band
           "Fitness Band" (Fin (1475 # 100)) (inject_Z 1500) Stock.shelf
           initial).
  - reflexivity.
  - discriminate.
  - reflexivity.
  - reflexivity.
  - reflexivity.
Defined.

(** ** backend.js: placing orders *)

Lemma send_confirmations_spec env out customer local_order_id s :
  Backend.send_confirmations env out customer local_order_id s =
  (Ok tt,
   Backend.mkState (Backend.orders_json s)
     (Backend.effects s ++
      let admin :=
        Backend.SendMail
          (JStr (Catalog.string_or (Backend.EMAIL_TO_ADMIN env)
                   "you@yourdomain.com"))
          ("New order placed — " ++ local_order_id)%string in
      if truthy customer && truthy (Backend.prop customer "email") then
        Backend.SendMail (Backend.prop customer "email")
          ("Order confirmation — " ++ local_order_id)%string
        :: match Backend.customer_mail out with
           | Ok _ => [admin]
           | Throw _ => []
           end
      else [admin])).
Proof.
  unfold Backend.send_confirmations, Backend.and_then, Backend.await.
  destruct (truthy customer && truthy (Backend.prop customer "email")).
  - destruct (Backend.customer_mail out); simpl;
      rewrite <- ?app_assoc; reflexivity.
  - reflexivity.
Qed.

(** X26: the mails of an order never fail the request, whatever the mail
    server answers, and write nothing to [orders.json]. A customer with an
    email address is written to first; the admin is written to afterwards
    unless the customer's mail failed, and alone when the customer has no
    address. *)
Theorem confirmation_mails (env : Backend.Env) (out : Backend.Outside)
    (customer : jsval) (local_order_id : string) (s : Backend.State) :
  fst (Backend.send_confirmations env out customer local_order_id s) = Ok tt /\
  Backend.orders_json
    (snd (Backend.send_confirmations env out customer local_order_id s))
    = Backend.orders_json s /\
  exists admin to_customer,
    admin = Backend.SendMail
              (JStr (Catalog.string_or (Backend.EMAIL_TO_ADMIN env)
                       "you@yourdomain.com"))
              ("New order placed — " ++ local_order_id)%string /\
    to_customer = Backend.SendMail (Backend.prop customer "email")
                    ("Order confirmation — " ++ local_order_id)%string /\
    Backend.effects
      (snd (Backend.send_confirmations env out customer local_order_id s))
    = Backend.effects s ++
      (if truthy customer && truthy (Backend.prop customer "email") then
         match Backend.customer_mail out with
         | Ok _ => [to_customer; admin]
         | Throw _ => [to_customer]
         end
       else [admin]).
Proof.
  rewrite send_confirmations_spec. simpl.
  split; [reflexivity|]. split; [reflexivity|].
  do 2 eexists. split; [reflexivity|]. split; [reflexivity|].
  destruct (truthy customer && truthy (Backend.prop customer "email"));
    [|reflexivity].
  destruct (Backend.customer_mail out); reflexivity.
Qed.

Section PlaceOrderProofs.

Variable toISOString : Z -> string.

Ltac bsimpl :=
  cbn -[Backend.send_confirmations Backend.supplier_response
        Backend.saved_order Backend.supplier_items Backend.saveOrderLocally].

(** The supplier step never throws and saves nothing. *)
Lemma supplier_response_spec env out order s :
  exists response,
    Backend.supplier_response env out order s =
      (Ok response,
       Backend.mkState (Backend.orders_json s)
         (Backend.effects s ++ supplier_calls env order)).
Proof.
  unfold Backend.supplier_response, supplier_calls.
  destruct (Backend.supplier_configured env).
  - unfold Backend.await. destruct (Backend.supplier out) as [data|e]; simpl;
      eexists; reflexivity.
  - eexists. unfold Backend.pure. rewrite app_nil_r. destruct s; reflexivity.
Qed.

(** Saving into a file that gives an array stands or falls with the
    write. *)
Lemma save_readable out order s saved :
  saved_orders (Backend.orders_json s) = Some saved ->
  Backend.saveOrderLocally out order s =
    match Backend.write out with
    | Ok _ =>
        (Ok tt,
         Backend.mkState (Backend.Holds (Ok (JArr (saved ++ [order]))))
           (Backend.effects s))
    | Throw message =>
        (Throw message, Backend.mkState (Backend.torn out) (Backend.effects s))
    end.
Proof.
  unfold Backend.saveOrderLocally, saved_orders.
  destruct (Backend.orders_json s) as [|[v|e]]; try discriminate.
  - intros H. injection H as <-. reflexivity.
  - destruct v; try discriminate. intros H. injection H as <-. reflexivity.
Qed.

(** Saving into any other file throws before anything is written. *)
Lemma save_unreadable out order s :
  saved_orders (Backend.orders_json s) = None ->
  exists message, Backend.saveOrderLocally out order s = (Throw message, s).
Proof.
  unfold Backend.saveOrderLocally, saved_orders.
  destruct (Backend.orders_json s) as [|[v|e]]; try discriminate.
  - destruct v; try discriminate; intros _; eexists; reflexivity.
  - intros _. eexists. reflexivity.
Qed.

(** A request that does not get as far as the supplier step: its answer is
    not 200, nothing is saved, and at most the retrieval of the intent has
    been sent. Every other request is one for a paid intent with a readable
    cart. *)
Lemma place_order_cases env now saved_at out cartItems paymentIntentId
    customer s :
  let r := Backend.place_order toISOString env now saved_at out cartItems
             paymentIntentId customer s in
  (code (fst r) <> 200 /\
   Backend.orders_json (snd r) = Backend.orders_json s /\
   (Backend.effects (snd r) = Backend.effects s \/
    exists pid, Backend.effects (snd r)
                = Backend.effects s ++ [Backend.RetrieveIntent pid])) \/
  (exists i cart pid intent status items,
     cartItems = Some (i :: cart) /\ paymentIntentId = Some pid /\
     pid <> EmptyString /\
     Backend.intent out = Ok intent /\ truthy intent = true /\
     get_prop intent "status" = Ok status /\
     is_string status "succeeded" = true /\
     Backend.supplier_items (i :: cart) = Ok items).
Proof.
  intros r. subst r. unfold Backend.place_order.
  destruct cartItems as [[|i cart]|];
    [left; bsimpl; split; [discriminate | auto] | |
     left; bsimpl; split; [discriminate | auto]].
  destruct paymentIntentId as [[|c pid]|];
    [left; bsimpl; split; [discriminate | auto] | |
     left; bsimpl; split; [discriminate | auto]].
  unfold Backend.guarded, Backend.and_then, Backend.await at 1.
  destruct (Backend.intent out) as [intent|e] eqn:Hout; bsimpl;
    [|left; split; [discriminate | split; [reflexivity | right; eauto]]].
  unfold Backend.lift.
  destruct (truthy intent) eqn:Hi; bsimpl;
    [|left; split; [discriminate | split; [reflexivity | right; eauto]]].
  destruct (get_prop intent "status") as [st|e] eqn:Hst; bsimpl;
    [|left; split; [discriminate | split; [reflexivity | right; eauto]]].
  destruct (is_string st "succeeded") eqn:Hs; bsimpl;
    [|left; split; [discriminate | split; [reflexivity | right; eauto]]].
  destruct (Backend.supplier_items (i :: cart)) as [items|e] eqn:Hitems;
    bsimpl;
    [|left; split; [discriminate | split; [reflexivity | right; eauto]]].
  right. exists i, cart, (String c pid), intent, st, items.
  repeat split; auto. discriminate.
Qed.

(** A request for a paid intent with a readable cart goes through the
    supplier step, then saves, and only then sends the mails. *)
Lemma place_order_paid env now saved_at out i cart pid customer intent
    status items s :
  pid <> EmptyString ->
  Backend.intent out = Ok intent ->
  truthy intent = true ->
  get_prop intent "status" = Ok status ->
  is_string status "succeeded" = true ->
  Backend.supplier_items (i :: cart) = Ok items ->
  exists response,
    Backend.place_order toISOString env now saved_at out (Some (i :: cart))
      (Some pid) customer s =
    match
      Backend.saveOrderLocally out
        (Backend.saved_order toISOString now saved_at pid customer items
           response)
        (Backend.mkState (Backend.orders_json s)
           ((Backend.effects s ++ [Backend.RetrieveIntent pid]) ++
            supplier_calls env
              (Backend.supplier_order now pid customer items)))
    with
    | (Ok _, s2) =>
        (json 200
           [("success", JBool true);
            ("order",
             Backend.saved_order toISOString now saved_at pid customer items
               response)],
         snd (Backend.send_confirmations env out customer
                ("ds-" ++ String_of_int now)%string s2))
    | (Throw message, s2) =>
        (json 500 [("success", JBool false);
                   ("message", JStr (message_or message "Internal error"))],
         s2)
    end.
Proof.
  intros Hne Hout Hi Hst Hs Hitems.
  unfold Backend.place_order.
  destruct pid as [|c pid]; [congruence|].
  unfold Backend.guarded, Backend.and_then, Backend.await at 1.
  rewrite Hout. bsimpl. unfold Backend.lift. rewrite Hi, Hst. bsimpl.
  rewrite Hs. bsimpl. rewrite Hitems. bsimpl.
  match goal with
  | |- context [Backend.supplier_response env out ?o ?s0] =>
      destruct (supplier_response_spec env out o s0) as (response & ->)
  end.
  exists response. bsimpl.
  destruct (Backend.saveOrderLocally out _ _) as [[u|e] s2]; [|reflexivity].
  rewrite send_confirmations_spec. reflexivity.
Qed.

(** X27: unless [POST /api/place-order] answers 200, no confirmation mail
    has been sent, and [orders.json] is as it was, except that a failed
    write leaves what it leaves. *)
Theorem place_order_failure (env : Backend.Env) (now saved_at : Z)
    (out : Backend.Outside) (cartItems : option (list jsval))
    (paymentIntentId : option string) (customer : jsval)
    (s : Backend.State) :
  code (fst (Backend.place_order toISOString env now saved_at out cartItems
               paymentIntentId customer s)) <> 200 ->
  (Backend.orders_json
     (snd (Backend.place_order toISOString env now saved_at out cartItems
             paymentIntentId customer s)) = Backend.orders_json s \/
   (exists message, Backend.write out = Throw message) /\
   Backend.orders_json
     (snd (Backend.place_order toISOString env now saved_at out cartItems
             paymentIntentId customer s)) = Backend.torn out) /\
  exists calls,
    Backend.effects
      (snd (Backend.place_order toISOString env now saved_at out cartItems
              paymentIntentId customer s))
    = Backend.effects s ++ calls /\
    existsb is_mail calls = false.
Proof.
  intros H.
  destruct (place_order_cases env now saved_at out cartItems paymentIntentId
              customer s)
    as [(_ & Ho & He)
       |(i & cart & pid & intent & st & items & -> & -> & Hne & Hout & Hi
         & Hst & Hs & Hitems)].
  - split; [left; exact Ho|].
    destruct He as [He|(pid & He)].
    + exists []. now rewrite app_nil_r.
    + eexists. split; [exact He | reflexivity].
  - destruct (place_order_paid env now saved_at out i cart pid customer
                intent st items s Hne Hout Hi Hst Hs Hitems)
      as (response & Hr).
    rewrite Hr in *. clear Hr.
    assert (Hcalls : forall order,
               existsb is_mail
                 ([Backend.RetrieveIntent pid] ++ supplier_calls env order)
               = false).
    { intros order. unfold supplier_calls.
      destruct (Backend.supplier_configured env); reflexivity. }
    destruct (saved_orders (Backend.orders_json s)) as [saved|] eqn:Hfile.
    + match goal with
      | |- context [Backend.saveOrderLocally out ?o ?s1] =>
          rewrite (save_readable out o s1 saved Hfile) in *
      end.
      destruct (Backend.write out) as [u|message] eqn:Hw.
      * exfalso. apply H. reflexivity.
      * cbn [fst snd Backend.orders_json Backend.effects].
        split; [right; split; [eexists; reflexivity | reflexivity]|].
        eexists. split; [symmetry; apply app_assoc | apply Hcalls].
    + match goal with
      | |- context [Backend.saveOrderLocally out ?o ?s1] =>
          destruct (save_unreadable out o s1 Hfile) as (message & Hsave)
      end.
      rewrite Hsave. cbn [fst snd Backend.orders_json Backend.effects].
      split; [left; reflexivity|].
      eexists. split; [symmetry; apply app_assoc | apply Hcalls].
Qed.

(** X28: once the retrieved intent has status "succeeded" and every cart
    item can be read, and when [orders.json] is missing or holds an array
    and can be written, [POST /api/place-order] answers 200 and appends
    exactly one order to the file, keeping the orders already there,
    whatever the supplier and the mail server do; the response carries the
    order that was saved. Nothing is checked against earlier orders: the
    same payment intent is saved again on every such request. *)
Theorem place_order_saves (env : Backend.Env) (now saved_at : Z)
    (out : Backend.Outside) (i : jsval) (cart : list jsval) (pid : string)
    (customer intent status : jsval) (items saved : list jsval)
    (s : Backend.State) :
  pid <> EmptyString ->
  Backend.intent out = Ok intent ->
  truthy intent = true ->
  get_prop intent "status" = Ok status ->
  is_string status "succeeded" = true ->
  Backend.supplier_items (i :: cart) = Ok items ->
  saved_orders (Backend.orders_json s) = Some saved ->
  Backend.write out = Ok tt ->
  exists response,
    fst (Backend.place_order toISOString env now saved_at out
           (Some (i :: cart)) (Some pid) customer s)
    = json 200
        [("success", JBool true);
         ("order",
          Backend.saved_order toISOString now saved_at pid customer items
            response)] /\
    Backend.orders_json
      (snd (Backend.place_order toISOString env now saved_at out
              (Some (i :: cart)) (Some pid) customer s))
    = Backend.Holds
        (Ok (JArr (saved ++
                   [Backend.saved_order toISOString now saved_at pid
                      customer items response]))).
Proof.
  intros Hne Hout Hi Hst Hs Hitems Hfile Hw.
  destruct (place_order_paid env now saved_at out i cart pid customer
              intent status items s Hne Hout Hi Hst Hs Hitems)
    as (response & Hr).
  exists response. rewrite Hr.
  match goal with
  | |- context [Backend.saveOrderLocally out ?o ?s1] =>
      rewrite (save_readable out o s1 saved Hfile)
  end.
  rewrite Hw, send_confirmations_spec. split; reflexivity.
Qed.

(** X30: when [orders.json] exists but does not hold an array (or cannot be
    read as JSON), an order for a paid intent is answered 500 and is not
    saved, and no mail is sent; yet the order has already gone to the
    supplier, if one is configured. *)
Theorem place_order_spoilt_file (env : Backend.Env) (now saved_at : Z)
    (out : Backend.Outside) (i : jsval) (cart : list jsval) (pid : string)
    (customer intent status : jsval) (items : list jsval)
    (s : Backend.State) :
  pid <> EmptyString ->
  Backend.intent out = Ok intent ->
  truthy intent = true ->
  get_prop intent "status" = Ok status ->
  is_string status "succeeded" = true ->
  Backend.supplier_items (i :: cart) = Ok items ->
  saved_orders (Backend.orders_json s) = None ->
  code (fst (Backend.place_order toISOString env now saved_at out
               (Some (i :: cart)) (Some pid) customer s)) = 500 /\
  Backend.orders_json
    (snd (Backend.place_order toISOString env now saved_at out
            (Some (i :: cart)) (Some pid) customer s))
    = Backend.orders_json s /\
  Backend.effects
    (snd (Backend.place_order toISOString env now saved_at out
            (Some (i :: cart)) (Some pid) customer s))
    = Backend.effects s ++
      Backend.RetrieveIntent pid
      :: supplier_calls env (Backend.supplier_order now pid customer items).
Proof.
  intros Hne Hout Hi Hst Hs Hitems Hfile.
  destruct (place_order_paid env now saved_at out i cart pid customer
              intent status items s Hne Hout Hi Hst Hs Hitems)
    as (response & Hr).
  rewrite Hr.
  match goal with
  | |- context [Backend.saveOrderLocally out ?o ?s1] =>
      destruct (save_unreadable out o s1 Hfile) as (message & Hsave)
  end.
  rewrite Hsave. cbn [fst snd Backend.orders_json Backend.effects code json].
  split; [reflexivity|]. split; [reflexivity|].
  now rewrite <- app_assoc.
Qed.

End PlaceOrderProofs.

Lemma place_order_failure_witness :
  code (fst (Backend.place_order Stock.stamp Stock.supplier_env 1000000
               1000500 Stock.unpaid (Some Stock.basket) (Some "pi_123")
               Stock.buyer Stock.empty_store)) <> 200 /\
  exists calls,
    Backend.effects
      (snd (Backend.place_order Stock.stamp Stock.supplier_env 1000000
              1000500 Stock.unpaid (Some Stock.basket) (Some "pi_123")
              Stock.buyer Stock.empty_store))
    = Backend.effects Stock.empty_store ++ calls /\
    existsb is_mail calls = false.
Proof.
  assert (H : code (fst (Backend.place_order Stock.stamp Stock.supplier_env
                           1000000 1000500 Stock.unpaid (Some Stock.basket)
                           (Some "pi_123") Stock.buyer Stock.empty_store))
              <> 200) by discriminate.
  split; [exact H|].
  apply (place_order_failure Stock.stamp Stock.supplier_env 1000000 1000500
           Stock.unpaid (Some Stock.basket) (Some "pi_123") Stock.buyer
           Stock.empty_store H).
Defined.

Lemma place_order_saves_witness :
  Backend.intent Stock.bad_day = Ok Stock.paid_intent /\
  saved_orders (Backend.orders_json Stock.empty_store) = Some [] /\
  Backend.write Stock.bad_day = Ok tt /\
  exists items response,
    Backend.supplier_items Stock.basket = Ok items /\
    fst (Backend.place_order Stock.stamp Stock.supplier_env 1000000 1000500
           Stock.bad_day (Some Stock.basket) (Some "pi_123") Stock.buyer
           Stock.empty_store)
    = json 200
        [("success", JBool true);
         ("order",
          Backend.saved_order Stock.stamp 1000000 1000500 "pi_123"
            Stock.buyer items response)] /\
    Backend.orders_json
      (snd (Backend.place_order Stock.stamp Stock.supplier_env 1000000
              1000500 Stock.bad_day (Some Stock.basket) (Some "pi_123")
              Stock.buyer Stock.empty_store))
    = Backend.Holds
        (Ok (JArr ([] ++
                   [Backend.saved_order Stock.stamp 1000000 1000500 "pi_123"
                      Stock.buyer items response]))).
Proof.
  split; [reflexivity|]. split; [reflexivity|]. split; [reflexivity|].
  eexists.
  assert (H := place_order_saves Stock.stamp Stock.supplier_env 1000000
                 1000500 Stock.bad_day
                 (JObj [("id", JStr "p1"); ("title", JStr "Wireless Earbuds");
                        ("price", JInt 1999); ("quantity", JInt 2)])
                 [] "pi_123" Stock.buyer Stock.paid_intent (JStr "succeeded")
                 _ [] Stock.empty_store
                 ltac:(discriminate) eq_refl eq_refl eq_refl eq_refl eq_refl
                 eq_refl eq_refl).
  destruct H as (response & H1 & H2).
  exists response. split; [reflexivity|]. split; [exact H1 | exact H2].
Defined.

Lemma place_order_spoilt_file_witness :
  saved_orders (Backend.orders_json Stock.spoilt_store) = None /\
  exists items,
    Backend.supplier_items Stock.basket = Ok items /\
    code (fst (Backend.place_order Stock.stamp Stock.supplier_env 1000000
                 1000500 Stock.good_day (Some Stock.basket) (Some "pi_123")
                 Stock.buyer Stock.spoilt_store)) = 500 /\
    Backend.orders_json
      (snd (Backend.place_order Stock.stamp Stock.supplier_env 1000000
              1000500 Stock.good_day (Some Stock.basket) (Some "pi_123")
              Stock.buyer Stock.spoilt_store))
      = Backend.orders_json Stock.spoilt_store /\
    Backend.effects
      (snd (Backend.place_order Stock.stamp Stock.supplier_env 1000000
              1000500 Stock.good_day (Some Stock.basket) (Some "pi_123")
              Stock.buyer Stock.spoilt_store))
      = Backend.effects Stock.spoilt_store ++
        Backend.RetrieveIntent "pi_123"
        :: supplier_calls Stock.supplier_env
             (Backend.supplier_order 1000000 "pi_123" Stock.buyer items).
Proof.
  split; [reflexivity|]. eexists. split; [reflexivity|].
  apply (place_order_spoilt_file Stock.stamp Stock.supplier_env 1000000
           1000500 Stock.good_day
           (JObj [("id", JStr "p1"); ("title", JStr "Wireless Earbuds");
                  ("price", JInt 1999); ("quantity", JInt 2)])
           [] "pi_123" Stock.buyer Stock.paid_intent (JStr "succeeded")).
  - discriminate.
  - reflexivity.
  - reflexivity.
  - reflexivity.
  - reflexivity.
  - reflexivity.
  - reflexivity.
Defined.

(** ** backend.js: Paystack *)

